(** * iTrading dashboard: list filtering/pagination and form validation

    A shallow embedding of the client-side state logic of the dashboard:
    the page-level event handlers of [src/pages/Brokers.tsx] and
    [src/pages/Posts.tsx], the form hook of [src/hooks/useFormValidation.ts]
    and the numeric change handler of
    [src/components/features/brokers/BrokerForm.tsx].

    React state is modelled by explicit state passing: every handler takes
    the values its closure captured at render time (the state, the derived
    page count, the visible slice) and returns the state after all queued
    updates have been applied in order. *)

From Stdlib Require Import ZArith Lia Bool Ascii String.
From stdpp Require Import base option list gmap strings pretty sorting.

Local Open Scope Z_scope.

(** ** JavaScript values and built-ins *)

Module Js.

(** The JavaScript values a flat form record can hold.  [VNum] carries the
    integral numbers the forms of this program store. *)
Inductive value : Type :=
  | VUndefined
  | VNull
  | VBool (b : bool)
  | VNum (n : Z)
  | VNaN
  | VStr (s : string).

#[global] Instance value_eq_dec : EqDecision value.
Proof. solve_decision. Defined.

(** Truthiness of a value, as tested by [if (x)] and [!x]. *)
Definition truthy (v : value) : bool :=
  match v with
  | VUndefined | VNull | VNaN => false
  | VBool b => b
  | VNum n => negb (n =? 0)
  | VStr s => negb (String.eqb s "")
  end.

(** Truthiness of a property read [obj[key]] on an object whose values are
    strings: a missing key reads [undefined]. *)
Definition truthy_str (o : option string) : bool :=
  match o with
  | Some s => negb (String.eqb s "")
  | None => false
  end.

Definition nat_of_ascii' (c : ascii) : Z := Z.of_nat (nat_of_ascii c).

(** White space skipped by [parseInt] (the code points below 128). *)
Definition is_space (c : ascii) : bool :=
  let n := nat_of_ascii' c in
  (n =? 9) || (n =? 10) || (n =? 11) || (n =? 12) || (n =? 13) || (n =? 32).

Fixpoint trimStart (s : string) : string :=
  match s with
  | String c s' => if is_space c then trimStart s' else s
  | EmptyString => EmptyString
  end.

(** Value of a character as a digit in a radix up to 36. *)
Definition digit_val (c : ascii) : option Z :=
  let n := nat_of_ascii' c in
  if (48 <=? n) && (n <=? 57) then Some (n - 48)
  else if (97 <=? n) && (n <=? 122) then Some (n - 87)
  else if (65 <=? n) && (n <=? 90) then Some (n - 55)
  else None.

(** Longest prefix of digits of the radix; [None] when it is empty. *)
Fixpoint parse_digits (radix : Z) (acc : option Z) (s : string) : option Z :=
  match s with
  | String c s' =>
      match digit_val c with
      | Some d =>
          if d <? radix
          then parse_digits radix (Some (default 0 acc * radix + d)) s'
          else acc
      | None => acc
      end
  | EmptyString => acc
  end.

(** [parseInt(s)] with no radix argument: leading white space, an optional
    sign, an optional [0x]/[0X] prefix, then the longest run of digits.
    [None] stands for [NaN].  The result is exact; the engine rounds it to
    a double, which is monotone and the identity up to [2^53]. *)
Definition parseInt (s : string) : option Z :=
  let s1 := trimStart s in
  let '(sign, s2) :=
    match s1 with
    | String "-" r => (-1, r)
    | String "+" r => (1, r)
    | _ => (1, s1)
    end in
  let '(radix, s3) :=
    match s2 with
    | String "0" (String "x" r) => (16, r)
    | String "0" (String "X" r) => (16, r)
    | _ => (10, s2)
    end in
  Z.mul sign <$> parse_digits radix None s3.

(** [n.toString()] for an integral number the engine prints in plain
    decimal, as it does every safe integer ([MAX_SAFE_INTEGER] below); from
    [10^21] on it prints an exponent, which is outside this definition. *)
Definition toString (n : Z) : string := pretty n.

(** [String.prototype.toLowerCase] on the letters A-Z. *)
Definition lower_ascii (c : ascii) : ascii :=
  let n := nat_of_ascii c in
  if (65 <=? n)%nat && (n <=? 90)%nat then ascii_of_nat (n + 32) else c.

Fixpoint toLowerCase (s : string) : string :=
  match s with
  | String c s' => String (lower_ascii c) (toLowerCase s')
  | EmptyString => EmptyString
  end.

Fixpoint startsWith (t s : string) : bool :=
  match t, s with
  | EmptyString, _ => true
  | String a t', String b s' => if Ascii.eqb a b then startsWith t' s' else false
  | String _ _, EmptyString => false
  end.

(** [s.includes(t)]: [t] occurs somewhere in [s]. *)
Fixpoint includes (s t : string) : bool :=
  startsWith t s ||
  match s with
  | String _ s' => includes s' t
  | EmptyString => false
  end.

(** [Math.ceil(n / p)] for integers [n >= 0] and [p >= 1]. *)
Definition ceil_div (n p : Z) : Z := (n + p - 1) / p.

Definition is_empty_string (s : string) : bool :=
  match s with EmptyString => true | String _ _ => false end.

(** [String.prototype.trimEnd] and [trim], on the white space below 128. *)
Fixpoint trimEnd (s : string) : string :=
  match s with
  | String c s' =>
      let r := trimEnd s' in
      if is_space c && is_empty_string r then EmptyString else String c r
  | EmptyString => EmptyString
  end.

Definition trim (s : string) : string := trimEnd (trimStart s).

(** [x || null]. *)
Definition or_null (v : value) : value := if truthy v then v else VNull.


End Js.

(** ** The list filtering/pagination hook

    The hooks [useBrokersFiltering] and [usePostsFiltering] are imported by
    the pages but their files are not part of the sources at hand; the
    pages only show their interface ([filterState], the paginated slice,
    [totalPages] and the setters). *)

Module Filtering.

Inductive direction : Type := Asc | Desc.

#[global] Instance direction_eq_dec : EqDecision direction.
Proof. solve_decision. Defined.


(** The [filterState] object the pages read: [searchTerm], [filterStatus],
    [activeTab], [viewMode], [sortColumn], [sortDirection], [itemsPerPage],
    [currentPage] and [pageInputValue]. *)
Record FilterState : Type := mkFilterState {
  searchTerm : string;
  filterStatus : string;
  activeTab : string;
  viewMode : string;
  sortColumn : string;
  sortDirection : direction;
  itemsPerPage : Z;
  currentPage : Z;
  pageInputValue : string
}.

Definition with_currentPage (p : Z) (st : FilterState) : FilterState :=
  mkFilterState (searchTerm st) (filterStatus st) (activeTab st) (viewMode st)
    (sortColumn st) (sortDirection st) (itemsPerPage st) p (pageInputValue st).


(** Modelled from the spec: the setter of the raw page-input text buffer
    ([setPageInputValue] of the missing hook file). *)
Definition setPageInputValue (v : string) (st : FilterState) : FilterState :=
  mkFilterState (searchTerm st) (filterStatus st) (activeTab st) (viewMode st)
    (sortColumn st) (sortDirection st) (itemsPerPage st) (currentPage st) v.

(** Modelled from the spec: [setSearchTerm] of the missing hook file;
    changing the search term resets the current page to 1. *)
Definition setSearchTerm (v : string) (st : FilterState) : FilterState :=
  mkFilterState v (filterStatus st) (activeTab st) (viewMode st)
    (sortColumn st) (sortDirection st) (itemsPerPage st) 1 (pageInputValue st).

(** Modelled from the spec: [setFilterStatus] of the missing hook file.
    The page reset that goes with it is issued by the caller
    (Posts.tsx, the FilterDropdown onChange). *)
Definition setFilterStatus (v : string) (st : FilterState) : FilterState :=
  mkFilterState (searchTerm st) v (activeTab st) (viewMode st)
    (sortColumn st) (sortDirection st) (itemsPerPage st) (currentPage st)
    (pageInputValue st).

(** Modelled from the spec: [handleTabChange] of the missing hook file;
    changing the tab resets the current page to 1. *)
Definition handleTabChange (v : string) (st : FilterState) : FilterState :=
  mkFilterState (searchTerm st) (filterStatus st) v (viewMode st)
    (sortColumn st) (sortDirection st) (itemsPerPage st) 1 (pageInputValue st).

(** Modelled from the spec: [setItemsPerPage] of the missing hook file; the
    page reset is caller-triggered. *)
Definition setItemsPerPage (v : Z) (st : FilterState) : FilterState :=
  mkFilterState (searchTerm st) (filterStatus st) (activeTab st) (viewMode st)
    (sortColumn st) (sortDirection st) v (currentPage st) (pageInputValue st).

(** Modelled from the spec: [handlePageChange] of the missing hook file;
    page navigation clamps to [1, totalPages].  [totalPages] is the value
    of the render the handler was created in. *)
Definition handlePageChange (totalPages page : Z) (st : FilterState) : FilterState :=
  with_currentPage (Z.max 1 (Z.min page totalPages)) st.


Section Hook.
(** The record type of the list, its searched text fields, its
    category/status/tab filter and its per-column ascending order. *)
Context {Rec : Type}.
Variable searchFields : Rec -> list string.
Variable passesFilter : string -> string -> Rec -> bool.
Variable leb : string -> Rec -> Rec -> bool.

(** Modelled from the spec: case-insensitive substring match of the
    search term over one or more text fields. *)
Definition matchesSearch (term : string) (r : Rec) : bool :=
  existsb (fun f => Js.includes (Js.toLowerCase f) (Js.toLowerCase term))
    (searchFields r).

(** Modelled from the spec: a record is kept when it matches the search
    term and passes the optional category/status/tab filter. *)
Definition keep (st : FilterState) (r : Rec) : bool :=
  matchesSearch (searchTerm st) r && passesFilter (filterStatus st) (activeTab st) r.

(** Modelled from the spec: the order of the sort column, reversed when
    the direction is descending. *)
Definition sort_rel (column : string) (d : direction) : relation Rec :=
  fun x y => Is_true (match d with
                      | Asc => leb column x y
                      | Desc => leb column y x
                      end).

#[local] Instance sort_rel_dec column d x y : Decision (sort_rel column d x y).
Proof. unfold sort_rel. apply _. Defined.

(** Modelled from the spec: the filter predicate is applied before the
    sort, the sort before pagination. *)
Definition filteredAndSorted (st : FilterState) (records : list Rec) : list Rec :=
  merge_sort (sort_rel (sortColumn st) (sortDirection st))
    (List.filter (keep st) records).

(** Modelled from the spec: the number of records left by the filter. *)
Definition filteredCount (st : FilterState) (records : list Rec) : Z :=
  Z.of_nat (List.length (filteredAndSorted st records)).

(** Modelled from the spec: total page count is
    ceil(filteredCount / pageSize), minimum 1. *)
Definition totalPages (st : FilterState) (records : list Rec) : Z :=
  Z.max 1 (Js.ceil_div (filteredCount st records) (itemsPerPage st)).

(** Modelled from the spec: the current page's slice of the
    filtered-and-sorted list, for the 1-based page number. *)
Definition paginated (st : FilterState) (records : list Rec) : list Rec :=
  take (Z.to_nat (itemsPerPage st))
    (drop (Z.to_nat ((currentPage st - 1) * itemsPerPage st))
       (filteredAndSorted st records)).
End Hook.

End Filtering.

(** ** Page-level handlers of [src/pages/Brokers.tsx] *)

Module Brokers.
Import Filtering.

(** The confirm dialog state (Brokers.tsx, [confirmDialog]). *)
Record ConfirmDialog : Type := mkConfirmDialog {
  isOpen : bool;
  brokerId : option string;
  brokerName : option string
}.

Definition closedDialog : ConfirmDialog := mkConfirmDialog false None None.

(** Search input, [onChange={e => setSearchTerm(e.target.value)}]. *)
Definition searchInput_onChange (value : string) (filterState : FilterState)
  : FilterState :=
  setSearchTerm value filterState.

(** PaginationSelector [onChange]: [setItemsPerPage(value)] then
    [handlePageChange(1)]. *)
Definition paginationSelector_onChange (totalPages value : Z)
    (filterState : FilterState) : FilterState :=
  handlePageChange totalPages 1 (setItemsPerPage value filterState).

(** Page input, [onChange]. *)
Definition pageInput_onChange (value : string) (filterState : FilterState)
  : FilterState :=
  setPageInputValue value filterState.

(** Page input, [onBlur]: [value] is [e.target.value]. *)
Definition pageInput_onBlur (totalPages : Z) (filterState : FilterState)
    (value : string) : FilterState :=
  match Js.parseInt value with
  | Some page =>
      if (1 <=? page) && (page <=? totalPages)
      then handlePageChange totalPages page filterState
      else setPageInputValue (Js.toString (currentPage filterState)) filterState
  | None => setPageInputValue (Js.toString (currentPage filterState)) filterState
  end.

(** Page input, [onKeyDown]: only the Enter key acts, on the buffered
    [filterState.pageInputValue]. *)
Definition pageInput_onKeyDown (totalPages : Z) (filterState : FilterState)
    (key : string) : FilterState :=
  if String.eqb key "Enter" then
    match Js.parseInt (pageInputValue filterState) with
    | Some page =>
        if (1 <=? page) && (page <=? totalPages)
        then handlePageChange totalPages page filterState
        else setPageInputValue (Js.toString (currentPage filterState)) filterState
    | None => setPageInputValue (Js.toString (currentPage filterState)) filterState
    end
  else filterState.

(** [handleConfirmDelete]: [deleted] tells whether the awaited
    [deleteBroker] resolved ([true]) or threw ([false]);
    [paginatedBrokers] and [totalPages] are those of the render in which
    the dialog was confirmed.  The [finally] block closes the dialog. *)
Definition handleConfirmDelete {Rec : Type} (confirmDialog : ConfirmDialog)
    (deleted : bool) (paginatedBrokers : list Rec) (totalPages : Z)
    (filterState : FilterState) : FilterState * ConfirmDialog :=
  if negb (Js.truthy_str (brokerId confirmDialog))
  then (filterState, confirmDialog)
  else if deleted then
    ((if Nat.eqb (List.length paginatedBrokers) 1 && (1 <? currentPage filterState)
      then handlePageChange totalPages (currentPage filterState - 1) filterState
      else filterState),
     closedDialog)
  else (filterState, closedDialog).

End Brokers.

(** ** Page-level handlers of [src/pages/Posts.tsx] *)

Module Posts.
Import Filtering.

(** The delete confirmation state (Posts.tsx, [deleteConfirm]). *)
Record DeleteConfirm (Rec : Type) : Type := mkDeleteConfirm {
  isOpen : bool;
  post : option Rec;
  isDeleting : bool
}.
Arguments mkDeleteConfirm {Rec} _ _ _.
Arguments isOpen {Rec} _.
Arguments post {Rec} _.
Arguments isDeleting {Rec} _.

(** Search input, [onChange={e => setSearchTerm(e.target.value)}]. *)
Definition searchInput_onChange (value : string) (filterState : FilterState)
  : FilterState :=
  setSearchTerm value filterState.

(** FilterDropdown [onChange]: [setFilterStatus(value)] then
    [handlePageChange(1)]. *)
Definition filterDropdown_onChange (totalPages : Z) (value : string)
    (filterState : FilterState) : FilterState :=
  handlePageChange totalPages 1 (setFilterStatus value filterState).

(** TabNavigation [onTabChange={handleTabChange}]. *)
Definition tabNavigation_onTabChange (tab : string) (filterState : FilterState)
  : FilterState :=
  handleTabChange tab filterState.

(** PaginationSelector [onChange]. *)
Definition paginationSelector_onChange (totalPages value : Z)
    (filterState : FilterState) : FilterState :=
  handlePageChange totalPages 1 (setItemsPerPage value filterState).

(** Page input, [onBlur]. *)
Definition pageInput_onBlur (totalPages : Z) (filterState : FilterState)
    (value : string) : FilterState :=
  match Js.parseInt value with
  | Some page =>
      if (1 <=? page) && (page <=? totalPages)
      then handlePageChange totalPages page filterState
      else setPageInputValue (Js.toString (currentPage filterState)) filterState
  | None => setPageInputValue (Js.toString (currentPage filterState)) filterState
  end.

(** Page input, [onKeyDown]. *)
Definition pageInput_onKeyDown (totalPages : Z) (filterState : FilterState)
    (key : string) : FilterState :=
  if String.eqb key "Enter" then
    match Js.parseInt (pageInputValue filterState) with
    | Some page =>
        if (1 <=? page) && (page <=? totalPages)
        then handlePageChange totalPages page filterState
        else setPageInputValue (Js.toString (currentPage filterState)) filterState
    | None => setPageInputValue (Js.toString (currentPage filterState)) filterState
    end
  else filterState.

(** [confirmDelete]: on success the dialog is closed and the page may step
    back; when [deletePost] throws, only [isDeleting] is cleared. *)
Definition confirmDelete {Rec : Type} (deleteConfirm : DeleteConfirm Rec)
    (deleted : bool) (paginatedPosts : list Rec) (totalPages : Z)
    (filterState : FilterState) : FilterState * DeleteConfirm Rec :=
  match post deleteConfirm with
  | None => (filterState, deleteConfirm)
  | Some _ =>
      if deleted then
        ((if Nat.eqb (List.length paginatedPosts) 1 && (1 <? currentPage filterState)
          then handlePageChange totalPages (currentPage filterState - 1) filterState
          else filterState),
         mkDeleteConfirm false None false)
      else (filterState,
            mkDeleteConfirm (isOpen deleteConfirm) (post deleteConfirm) false)
  end.

End Posts.

(** ** The form validation hook, [src/hooks/useFormValidation.ts] *)

Module FormValidation.

(** [FieldValidationResult]: [{ isValid, error? }]. *)
Record FieldValidationResult : Type := mkFieldResult {
  fr_isValid : bool;
  fr_error : option string
}.

(** The result of [validateForm]: [{ isValid, errors }]. *)
Record FormValidationResult : Type := mkFormResult {
  vf_isValid : bool;
  vf_errors : gmap string string
}.

(** The hook's state: [data], [errors], [touched], [isValidating]. *)
Record FormState : Type := mkFormState {
  data : gmap string Js.value;
  errors : gmap string string;
  touched : gmap string bool;
  isValidating : bool
}.

(** The fields of a change event's target the hook reads. *)
Record ChangeTarget : Type := mkChangeTarget {
  value : string;
  type : string;
  checked : bool
}.

Definition with_errors (e : gmap string string) (st : FormState) : FormState :=
  mkFormState (data st) e (touched st) (isValidating st).

Definition with_touched (t : gmap string bool) (st : FormState) : FormState :=
  mkFormState (data st) (errors st) t (isValidating st).

Definition with_data (d : gmap string Js.value) (st : FormState) : FormState :=
  mkFormState d (errors st) (touched st) (isValidating st).

Definition with_isValidating (b : bool) (st : FormState) : FormState :=
  mkFormState (data st) (errors st) (touched st) b.

(** [isValid]: [Object.keys(errors).length === 0]. *)
Definition isValid (st : FormState) : bool := Nat.eqb (size (errors st)) 0.

(** A property read [obj[field]]: a missing key reads [undefined]. *)
Definition read (d : gmap string Js.value) (field : string) : Js.value :=
  default Js.VUndefined (d !! field).

Section Hook.
(** What the hook imports from [../utils/validation] (the rule type,
    [validateField] and [validateForm], both already applied to the
    translation function) and the built-in [Number]. *)
Context {Rule : Type}.
Variable validateField : Js.value -> Rule -> string -> FieldValidationResult.
Variable validateForm :
  gmap string Js.value -> gmap string Rule -> FormValidationResult.
Variable Number : string -> Js.value.

(** The options of the hook call. *)
Variable schema : gmap string Rule.
Variable validateOnBlur validateOnChange validateOnSubmit : bool.

Definition setData (newData : gmap string Js.value) (st : FormState) : FormState :=
  with_data newData st.

Definition updateField (field : string) (v : Js.value) (st : FormState)
  : FormState :=
  let st1 := with_data (<[field := v]> (data st)) st in
  let st2 :=
    if Js.truthy_str (errors st1 !! field)
    then with_errors (delete field (errors st1)) st1
    else st1 in
  if validateOnChange then
    match schema !! field with
    | Some rule =>
        let result := validateField v rule field in
        match fr_error result with
        | Some e =>
            if negb (fr_isValid result) && Js.truthy_str (Some e)
            then with_errors (<[field := e]> (errors st2)) st2
            else st2
        | None => st2
        end
    | None => st2
    end
  else st2.

Definition validateFieldFn (field : string) (st : FormState)
  : FormState * FieldValidationResult :=
  match schema !! field with
  | None => (st, mkFieldResult true None)
  | Some rule =>
      let result := validateField (read (data st) field) rule field in
      match fr_error result with
      | Some e =>
          if negb (fr_isValid result) && Js.truthy_str (Some e)
          then (with_errors (<[field := e]> (errors st)) st, result)
          else (with_errors (delete field (errors st)) st, result)
      | None => (with_errors (delete field (errors st)) st, result)
      end
  end.

Definition validateFormFn (st : FormState) : FormState * FormValidationResult :=
  let result := validateForm (data st) schema in
  (with_isValidating false (with_errors (vf_errors result) st), result).

Definition setFieldTouched (field : string) (isTouched : bool) (st : FormState)
  : FormState :=
  with_touched (<[field := isTouched]> (touched st)) st.

Definition setError (field : string) (error : string) (st : FormState)
  : FormState :=
  with_errors (<[field := error]> (errors st)) st.

Definition clearError (field : string) (st : FormState) : FormState :=
  with_errors (delete field (errors st)) st.

Definition clearErrors (st : FormState) : FormState := with_errors ∅ st.

Definition reset (resetData : gmap string Js.value) : FormState :=
  mkFormState resetData ∅ ∅ false.

Definition handleBlur (field : string) (st : FormState) : FormState :=
  let st1 := setFieldTouched field true st in
  if validateOnBlur then fst (validateFieldFn field st1) else st1.

Definition handleChange (field : string) (target : ChangeTarget)
    (st : FormState) : FormState :=
  let fieldValue :=
    if String.eqb (type target) "checkbox" then Js.VBool (checked target)
    else if String.eqb (type target) "number" then
      (if String.eqb (value target) "" then Js.VUndefined
       else Number (value target))
    else Js.VStr (value target) in
  updateField field fieldValue st.

(** [handleSubmit(onSubmit)(e)]: the second component is the argument
    [onSubmit] was called with, [None] when it was not called.  Whether
    [onSubmit] returns or throws, [isValidating] ends [false]. *)
Definition handleSubmit (st : FormState)
  : FormState * option (gmap string Js.value) :=
  if validateOnSubmit then
    let '(st1, result) := validateFormFn st in
    if negb (vf_isValid result)
    then (with_touched ((fun _ => true) <$> schema) st1, None)
    else (with_isValidating false st1, Some (data st1))
  else (with_isValidating false st, Some (data st)).
End Hook.

End FormValidation.

(** ** [src/components/features/brokers/BrokerForm.tsx] *)

Module BrokerForm.
Import FormValidation.

Section Form.
Context {Rule : Type}.
Variable validateField : Js.value -> Rule -> string -> FieldValidationResult.
Variable BROKER_FORM_SCHEMA : gmap string Rule.

(** The form's [updateField]: the hook is called with
    [validateOnChange: false]. *)
Definition updateField : string -> Js.value -> FormState -> FormState :=
  FormValidation.updateField validateField BROKER_FORM_SCHEMA false.

(** [handleEstablishedYearChange]: [value] is [e.target.value]. *)
Definition handleEstablishedYearChange (value : string) (st : FormState)
  : FormState :=
  updateField "established_in"
    (if Js.truthy (Js.VStr value)
     then match Js.parseInt value with
          | Some n => Js.VNum n
          | None => Js.VNaN
          end
     else Js.VNull)
    st.
End Form.

End BrokerForm.

(** ** The validation utilities imported by the form hook *)

Module Validation.
Import FormValidation.

(** Modelled from the spec: the rule type of the missing
    [utils/validation] file; a schema maps a field name to a rule
    (required, min/max length, numeric min/max, custom predicate,
    message). *)
Record ValidationRule : Type := mkRule {
  required : bool;
  minLength : option Z;
  maxLength : option Z;
  min : option Z;
  max : option Z;
  custom : option (Js.value -> bool);
  message : option string
}.

(** Modelled from the spec: the tests behind the kinds of rule, each on
    the values it applies to. *)
Definition is_empty (v : Js.value) : bool :=
  match v with
  | Js.VUndefined | Js.VNull => true
  | Js.VStr s => String.eqb s ""
  | _ => false
  end.

Definition shorter_than (v : Js.value) (bound : option Z) : bool :=
  match v, bound with
  | Js.VStr s, Some b => Z.of_nat (String.length s) <? b
  | _, _ => false
  end.

Definition longer_than (v : Js.value) (bound : option Z) : bool :=
  match v, bound with
  | Js.VStr s, Some b => b <? Z.of_nat (String.length s)
  | _, _ => false
  end.

Definition below (v : Js.value) (bound : option Z) : bool :=
  match v, bound with
  | Js.VNum n, Some b => n <? b
  | _, _ => false
  end.

Definition above (v : Js.value) (bound : option Z) : bool :=
  match v, bound with
  | Js.VNum n, Some b => b <? n
  | _, _ => false
  end.

Definition rejected (v : Js.value) (pred : option (Js.value -> bool)) : bool :=
  match pred with
  | Some p => negb (p v)
  | None => false
  end.

Section Translated.
(** The translation function the hook passes on. *)
Variable t : string -> string.

(** Modelled from the spec: [validateField] of the missing
    [utils/validation] file; a value fails its rule when it is required
    and empty, outside the length or numeric bounds, or rejected by the
    custom predicate; the error is the rule's message, or a translated
    default. *)
Definition validateField (v : Js.value) (rule : ValidationRule)
    (fieldName : string) : FieldValidationResult :=
  if (required rule && is_empty v)
     || shorter_than v (minLength rule) || longer_than v (maxLength rule)
     || below v (min rule) || above v (max rule)
     || rejected v (custom rule)
  then mkFieldResult false (Some (default (t fieldName) (message rule)))
  else mkFieldResult true None.

(** Modelled from the spec: [validateForm] of the missing
    [utils/validation] file; it validates the whole schema and returns
    the error map of the failing fields, valid when that map is empty. *)
Definition validateForm (d : gmap string Js.value)
    (schema : gmap string ValidationRule) : FormValidationResult :=
  let errs :=
    map_imap (fun field rule =>
                let r := validateField (read d field) rule field in
                if fr_isValid r then None else fr_error r) schema in
  mkFormResult (Nat.eqb (size errs) 0) errs.
End Translated.

End Validation.

(** ** A concrete list of brokers, used to run the definitions *)

Module Sample.
Import Filtering.

(** The [Broker] row: id, name, established year, headquarter,
    description, visibility flag. *)
Record Broker : Type := mkBroker {
  id : string;
  name : string;
  established_in : option Z;
  headquarter : option string;
  description : option string;
  is_visible : bool
}.

Definition searchFields (b : Broker) : list string :=
  name b :: option_list (headquarter b) ++ option_list (description b).

Definition passesFilter (status tab : string) (b : Broker) : bool := true.

Definition leb (column : string) (x y : Broker) : bool :=
  if String.eqb column "name" then String.leb (name x) (name y)
  else if String.eqb column "established_in"
  then default 0 (established_in x) <=? default 0 (established_in y)
  else true.

Definition broker (i n : string) (hq : string) (y : Z) : Broker :=
  mkBroker i n (Some y) (Some hq) None true.

Definition brokers : list Broker :=
  [ broker "b1" "Alpha FX" "London" 1999;
    broker "b2" "Beta Markets" "Sydney" 2005;
    broker "b3" "Gamma Trade" "New York" 1987 ].

(** Twenty-five brokers, for the pagination scenario. *)
Definition many : list Broker :=
  (fun i : nat => broker (pretty i) ("Broker " +:+ pretty i) "Hanoi" 2000) <$> seq 1 25.

Definition third_of_ten : FilterState :=
  mkFilterState "" "all" "all" "list" "name" Asc 10 3 "3".

Definition initial : FilterState :=
  mkFilterState "" "all" "all" "list" "name" Asc 10 1 "1".

(** Page size 2, second page: the slice holds the single third broker. *)
Definition second_page : FilterState :=
  mkFilterState "" "all" "all" "list" "name" Asc 2 2 "2".

Definition searching (term : string) : FilterState :=
  mkFilterState term "all" "all" "list" "name" Asc 10 1 "1".

(** The scenario schema [{name: required, minLength: 2}]. *)
Definition name_schema : gmap string Validation.ValidationRule :=
  {[ "name" := Validation.mkRule true (Some 2) None None None None None ]}.

Definition empty_name_form : FormValidation.FormState :=
  FormValidation.mkFormState {[ "name" := Js.VStr "" ]} ∅ ∅ false.

Definition t (key : string) : string := "validation." +:+ key.

(** [BROKER_FORM_SCHEMA] of BrokerForm.tsx, for a given value of
    [new Date().getFullYear()]. *)
Definition BROKER_FORM_SCHEMA (currentYear : Z)
  : gmap string Validation.ValidationRule :=
  {[ "name" :=
       Validation.mkRule true (Some 2) (Some 100) None None None
         (Some "Broker name must be between 2 and 100 characters");
     "established_in" :=
       Validation.mkRule false None None (Some 1800) (Some currentYear)
         (Some (fun v =>
                  negb (Js.truthy v)
                  || match v with
                     | Js.VNum n => (1800 <=? n) && (n <=? currentYear)
                     | _ => false
                     end))
         (Some "Please enter a valid year between 1800 and current year");
     "headquarter" :=
       Validation.mkRule false None (Some 100) None None None
         (Some "Headquarter must be less than 100 characters");
     "description" :=
       Validation.mkRule false (Some 10) None None None None
         (Some "Description must be at least 10 characters") ]}.

(** The broker form as [reset(initialData)] leaves it. *)
Definition broker_form : FormValidation.FormState :=
  FormValidation.reset
    {[ "name" := Js.VStr ""; "established_in" := Js.VNull;
       "headquarter" := Js.VStr ""; "description" := Js.VStr "" ]}.

(** [Number] on the decimal integers; anything else reads [NaN] here. *)
Definition Number (s : string) : Js.value :=
  match Js.parse_digits 10 None s with
  | Some n => Js.VNum n
  | None => Js.VNaN
  end.

End Sample.

(** ** More of [src/pages/Brokers.tsx] and [src/pages/Posts.tsx] *)

Module Pages.
Import Filtering.

(** The arguments both pages pass to the [pagination.showingRows] message:
    [startItem], [endItem] and [total], computed from the filter state and
    the length of the unfiltered list. *)
Record ShowingRows : Type := mkShowingRows {
  startItem : Z;
  endItem : Z;
  total : Z
}.

Definition showingRows {Rec : Type} (filterState : FilterState)
    (records : list Rec) : ShowingRows :=
  mkShowingRows
    ((currentPage filterState - 1) * itemsPerPage filterState + 1)
    (Z.min (currentPage filterState * itemsPerPage filterState)
       (Z.of_nat (List.length records)))
    (Z.of_nat (List.length records)).

(** An element of the [accountTypes] argument of the brokers page's
    [handleSubmit] ([Partial<BrokerAccountType>]): a missing or null
    [account_type] is [None], a missing other field is [undefined]. *)
Record AccountTypeInput : Type := mkAccountTypeInput {
  account_type : option string;
  spreads : Js.value;
  commission : Js.value;
  min_deposit : Js.value
}.

(** A row handed to the insert into [broker_account_types]. *)
Record AccountTypeRow : Type := mkAccountTypeRow {
  row_broker_id : string;
  row_account_type : string;
  row_spreads : Js.value;
  row_commission : Js.value;
  row_min_deposit : Js.value
}.

(** [at => at.account_type && at.account_type.trim()], as a condition. *)
Definition hasAccountType (a : AccountTypeInput) : bool :=
  match account_type a with
  | Some s => Js.truthy (Js.VStr s) && Js.truthy (Js.VStr (Js.trim s))
  | None => false
  end.

(** [accountTypesToInsert]: the filter, then the map. *)
Definition accountTypesToInsert (brokerId : string)
    (accountTypes : list AccountTypeInput) : list AccountTypeRow :=
  List.map
    (fun a => mkAccountTypeRow brokerId (default EmptyString (account_type a))
                (Js.or_null (spreads a)) (Js.or_null (commission a))
                (Js.or_null (min_deposit a)))
    (List.filter hasAccountType accountTypes).

(** The requests sent to the [broker_account_types] table. *)
Inductive Request : Type :=
  | DeleteAccountTypes (broker_id : string)
  | InsertAccountTypes (rows : list AccountTypeRow).

(** The account-type part of the brokers page's [handleSubmit]: the
    requests it sends, in order, for a broker id and the submitted
    account types. *)
Definition saveAccountTypes (brokerId : string)
    (accountTypes : list AccountTypeInput) : list Request :=
  if Js.truthy (Js.VStr brokerId) && (0 <? List.length accountTypes)%nat then
    DeleteAccountTypes brokerId
    :: (let rows := accountTypesToInsert brokerId accountTypes in
        if (0 <? List.length rows)%nat then [InsertAccountTypes rows] else [])
  else [].

(** [POST_TAB_CONFIGS] of Posts.tsx: id, label key, description key. *)
Definition POST_TAB_CONFIGS : list (string * string * string) :=
  [ ("all", "posts.tabs.all.label", "posts.tabs.all.description");
    ("news", "posts.tabs.news.label", "posts.tabs.news.description");
    ("event", "posts.tabs.event.label", "posts.tabs.event.description");
    ("terms_of_use", "posts.tabs.termsOfUse.label",
     "posts.tabs.termsOfUse.description");
    ("privacy_policy", "posts.tabs.privacyPolicy.label",
     "posts.tabs.privacyPolicy.description") ]%string.

(** A tab handed to TabNavigation. *)
Record Tab : Type := mkTab {
  tab_id : string;
  tab_label : string;
  tab_description : string;
  tab_count : nat
}.

Section PostsList.
Context {Post : Type}.
(** [post.type], and the page's translation function. *)
Variable type : Post -> string.
Variable t : string -> string.

(** [displayPosts]: the translated posts when there are any, else the
    plain posts. *)
Definition displayPosts (postsWithTranslations posts : list Post) : list Post :=
  if (0 <? List.length postsWithTranslations)%nat then postsWithTranslations
  else posts.

(** [tabsWithCounts]. *)
Definition tabsWithCounts (displayPosts : list Post) : list Tab :=
  List.map
    (fun tab : string * string * string =>
       let '(id, labelKey, descriptionKey) := tab in
       mkTab id (t labelKey) (t descriptionKey)
         (if String.eqb id "all" then List.length displayPosts
          else List.length
                 (List.filter (fun post => String.eqb (type post) id) displayPosts)))
    POST_TAB_CONFIGS.
End PostsList.

End Pages.

(** ** The modal state of the posts page, [src/pages/Posts.tsx] *)

Module PostsPage.
Import Filtering.

(** The page's own state next to the filter state. *)
Record PageState (Post : Type) : Type := mkPageState {
  filterState : FilterState;
  isModalOpen : bool;
  editingPost : option Post;
  deleteConfirm : Posts.DeleteConfirm Post;
  viewingPost : option Post
}.
Arguments mkPageState {Post} _ _ _ _ _.
Arguments filterState {Post} _.
Arguments isModalOpen {Post} _.
Arguments editingPost {Post} _.
Arguments deleteConfirm {Post} _.
Arguments viewingPost {Post} _.

(** What a handler does besides updating the state: the [alert] of the
    login check (with the key of the action it names) and the call of
    [deletePost]. *)
Inductive Effect (Post : Type) : Type :=
  | Alert (action : string)
  | DeletePost (post : Post).
Arguments Alert {Post} _.
Arguments DeletePost {Post} _.

(** The user events of the page. [ConfirmDelete] carries the outcome of the
    awaited [deletePost] and the slice and page count of the render. *)
Inductive Event (Post : Type) : Type :=
  | View (post : Post)
  | Edit (post : Post)
  | Delete (post : Post)
  | ConfirmDelete (deleted : bool) (paginatedPosts : list Post) (totalPages : Z)
  | CloseModal
  | CreateClick
  | CloseDialog
  | CloseView
  | EditFromView.
Arguments View {Post} _.
Arguments Edit {Post} _.
Arguments Delete {Post} _.
Arguments ConfirmDelete {Post} _ _ _.
Arguments CloseModal {Post}.
Arguments CreateClick {Post}.
Arguments CloseDialog {Post}.
Arguments CloseView {Post}.
Arguments EditFromView {Post}.

Section Handlers.
Context {Post User : Type}.
(** [user] of the auth store: [None] when nobody is logged in. *)
Variable user : option User.

Definition handleView (post : Post) (st : PageState Post) : PageState Post :=
  mkPageState (filterState st) (isModalOpen st) (editingPost st)
    (deleteConfirm st) (Some post).

Definition handleEdit (post : Post) (st : PageState Post)
  : PageState Post * list (Effect Post) :=
  match user with
  | None => (st, [Alert "actions.edit"%string])
  | Some _ =>
      (mkPageState (filterState st) true (Some post) (deleteConfirm st)
         (viewingPost st), [])
  end.

Definition handleDelete (post : Post) (st : PageState Post)
  : PageState Post * list (Effect Post) :=
  match user with
  | None => (st, [Alert "actions.delete"%string])
  | Some _ =>
      (mkPageState (filterState st) (isModalOpen st) (editingPost st)
         (Posts.mkDeleteConfirm true (Some post) false) (viewingPost st), [])
  end.

(** [confirmDelete], with the call of [deletePost] it makes. *)
Definition confirmDelete (deleted : bool) (paginatedPosts : list Post)
    (totalPages : Z) (st : PageState Post)
  : PageState Post * list (Effect Post) :=
  let '(fs, dc) :=
    Posts.confirmDelete (deleteConfirm st) deleted paginatedPosts totalPages
      (filterState st) in
  (mkPageState fs (isModalOpen st) (editingPost st) dc (viewingPost st),
   match Posts.post (deleteConfirm st) with
   | Some p => [DeletePost p]
   | None => []
   end).

Definition handleCloseModal (st : PageState Post) : PageState Post :=
  mkPageState (filterState st) false None (deleteConfirm st) (viewingPost st).

(** The create button's [onClick]. *)
Definition createButton_onClick (st : PageState Post)
  : PageState Post * list (Effect Post) :=
  match user with
  | None => (st, [Alert "actions.create"%string])
  | Some _ =>
      (mkPageState (filterState st) true (editingPost st) (deleteConfirm st)
         (viewingPost st), [])
  end.

(** The confirm dialog's [onClose]. *)
Definition confirmDialog_onClose (st : PageState Post) : PageState Post :=
  mkPageState (filterState st) (isModalOpen st) (editingPost st)
    (Posts.mkDeleteConfirm false None false) (viewingPost st).

(** The view modal's [onClose] and [onEdit]; the modal is rendered only
    while [viewingPost] is set. *)
Definition viewModal_onClose (st : PageState Post) : PageState Post :=
  mkPageState (filterState st) (isModalOpen st) (editingPost st)
    (deleteConfirm st) None.

Definition viewModal_onEdit (st : PageState Post)
  : PageState Post * list (Effect Post) :=
  match viewingPost st with
  | Some post => handleEdit post (viewModal_onClose st)
  | None => (st, [])
  end.

Definition step (ev : Event Post) (st : PageState Post)
  : PageState Post * list (Effect Post) :=
  match ev with
  | View post => (handleView post st, [])
  | Edit post => handleEdit post st
  | Delete post => handleDelete post st
  | ConfirmDelete deleted paginatedPosts totalPages =>
      confirmDelete deleted paginatedPosts totalPages st
  | CloseModal => (handleCloseModal st, [])
  | CreateClick => createButton_onClick st
  | CloseDialog => (confirmDialog_onClose st, [])
  | CloseView => (viewModal_onClose st, [])
  | EditFromView => viewModal_onEdit st
  end.

(** The events in order, with the effects they produce. *)
Fixpoint run (evs : list (Event Post)) (st : PageState Post)
  : PageState Post * list (Effect Post) :=
  match evs with
  | [] => (st, [])
  | ev :: evs' =>
      let '(st1, out1) := step ev st in
      let '(st2, out2) := run evs' st1 in
      (st2, out1 ++ out2)
  end.
End Handlers.

(** The state the page starts in. *)
Definition initial {Post : Type} (fs : FilterState) : PageState Post :=
  mkPageState fs false None (Posts.mkDeleteConfirm false None false) None.

(** No form and no delete confirmation is open. *)
Definition closed {Post : Type} (st : PageState Post) : Prop :=
  isModalOpen st = false /\ editingPost st = None
  /\ Posts.post (deleteConfirm st) = None.

Definition is_delete {Post : Type} (e : Effect Post) : bool :=
  match e with DeletePost _ => true | Alert _ => false end.

End PostsPage.

(** ** [src/components/features/posts/PostViewModal.tsx] *)

Module PostViewModal.

Section Translations.
Context {Translation : Type}.
Variable language_code : Translation -> string.

(** [currentTranslation]: the translation in the selected language, else
    the first one; [None] is [null].  A missing [translations] array
    behaves as the empty one. *)
Definition currentTranslation (translations : list Translation)
    (selectedLanguage : string) : option Translation :=
  match translations with
  | [] => None
  | first :: _ =>
      Some (default first
              (List.find (fun t => String.eqb (language_code t) selectedLanguage)
                 translations))
  end.

(** [availableLanguages]. *)
Definition availableLanguages (translations : list Translation) : list string :=
  List.map language_code translations.
End Translations.

End PostViewModal.

(** ** The image upload modal ([ImageUploadModal]) *)

Module ImageUploadModal.

(** The fields of a [File] the modal reads. *)
Record File : Type := mkFile {
  file_name : string;
  file_type : string;
  file_size : Z
}.

(** The result of [uploadFile]; [None] below stands for a rejected
    promise. *)
Record UploadResult : Type := mkUploadResult {
  url : string;
  path : string
}.

(** The modal's state, without the two flags that drive its fade-in. *)
Record ModalState : Type := mkModalState {
  dragActive : bool;
  preview : option string;
  altText : string;
  selectedFile : option File
}.

(** What the handlers do besides updating the state. *)
Inductive Effect : Type :=
  | ToastError (key : string)
  | ToastSuccess (key : string)
  | UploadFile (file : File)
  | CreateImageFromUpload (result : UploadResult) (alt : string) (file : File)
  | ImageInsert (url alt : string)
  | ReadAsDataURL (file : File)
  | OnClose.

Inductive Event : Type :=
  | Drag (type : string)
  | Drop (files : list File)
  | InputChange (files : list File)
  | ReaderLoaded (result : string)
  | AltTextChange (v : string)
  | RemovePreview
  | Upload (result : option UploadResult) (recorded : bool)
  | Close (isUploading : bool).

Definition initial : ModalState := mkModalState false None EmptyString None.

Section Modal.
(** Whether the [createImageRecord] prop is given. *)
Variable createImageRecord : bool.

Definition resetModal (st : ModalState) : ModalState :=
  mkModalState false None EmptyString None.

Definition handleFileSelect (file : File) (st : ModalState)
  : ModalState * list Effect :=
  if negb (Js.startsWith "image/" (file_type file))
  then (st, [ToastError "fileType"])
  else (mkModalState (dragActive st) (preview st) (altText st) (Some file),
        [ReadAsDataURL file]).

Definition handleDrag (type : string) (st : ModalState) : ModalState :=
  if String.eqb type "dragenter" || String.eqb type "dragover"
  then mkModalState true (preview st) (altText st) (selectedFile st)
  else if String.eqb type "dragleave"
  then mkModalState false (preview st) (altText st) (selectedFile st)
  else st.

Definition handleDrop (files : list File) (st : ModalState)
  : ModalState * list Effect :=
  let st1 := mkModalState false (preview st) (altText st) (selectedFile st) in
  match files with
  | file :: _ => handleFileSelect file st1
  | [] => (st1, [])
  end.

Definition handleInputChange (files : list File) (st : ModalState)
  : ModalState * list Effect :=
  match files with
  | file :: _ => handleFileSelect file st
  | [] => (st, [])
  end.

(** [altText || selectedFile.name]. *)
Definition altOrName (st : ModalState) (file : File) : string :=
  if Js.truthy (Js.VStr (altText st)) then altText st else file_name file.

(** [handleUpload]: [result] is what the awaited [uploadFile] resolved to,
    [None] when it threw; [recorded] tells whether the awaited
    [createImageFromUpload], when it is called, resolved. *)
Definition handleUpload (result : option UploadResult) (recorded : bool)
    (st : ModalState) : ModalState * list Effect :=
  match selectedFile st with
  | None => (st, [ToastError "required"])
  | Some file =>
      match result with
      | Some r =>
          if createImageRecord && negb recorded
          then (st, [UploadFile file;
                     CreateImageFromUpload r (altOrName st file) file])
          else
            (resetModal st,
             UploadFile file
             :: (if createImageRecord
                 then [CreateImageFromUpload r (altOrName st file) file]
                 else [])
             ++ [ImageInsert (url r) (altOrName st file);
                 ToastSuccess "uploaded"; OnClose])
      | None => (st, [UploadFile file])
      end
  end.

(** [handleClose], once its timeout has fired. *)
Definition handleClose (isUploading : bool) (st : ModalState)
  : ModalState * list Effect :=
  if isUploading then (st, [ToastError "general"])
  else (resetModal st, [OnClose]).

Definition step (ev : Event) (st : ModalState) : ModalState * list Effect :=
  match ev with
  | Drag type => (handleDrag type st, [])
  | Drop files => handleDrop files st
  | InputChange files => handleInputChange files st
  | ReaderLoaded result =>
      (mkModalState (dragActive st) (Some result) (altText st) (selectedFile st), [])
  | AltTextChange v =>
      (mkModalState (dragActive st) (preview st) v (selectedFile st), [])
  | RemovePreview => (mkModalState (dragActive st) None EmptyString None, [])
  | Upload result recorded => handleUpload result recorded st
  | Close isUploading => handleClose isUploading st
  end.

Fixpoint run (evs : list Event) (st : ModalState) : ModalState * list Effect :=
  match evs with
  | [] => (st, [])
  | ev :: evs' =>
      let '(st1, out1) := step ev st in
      let '(st2, out2) := run evs' st1 in
      (st2, out1 ++ out2)
  end.
End Modal.

(** The selected file, if any, has an image MIME type. *)
Definition image_selected (st : ModalState) : Prop :=
  forall file, selectedFile st = Some file ->
    Js.startsWith "image/" (file_type file) = true.

(** The file an effect uploads, if it is an upload. *)
Definition uploaded (e : Effect) : option File :=
  match e with
  | UploadFile file => Some file
  | _ => None
  end.

End ImageUploadModal.

(** ** [src/constants/general.ts] *)

Module Constants.




End Constants.

(** ** Saving a broker, [handleSubmit] of [src/pages/Brokers.tsx] *)

Module BrokerSubmit.

(** The fields of an [images] row the handler reads. *)
Record Image : Type := mkImage {
  image_id : string;
  image_record_id : string;
  image_type : string;
  image_path : string
}.

(** The [logoImage] argument: its own image fields (what is left once
    [file] and [publicUrl] are taken out) and the new file, if any. *)
Record LogoImage (ImageData File : Type) : Type := mkLogoImage {
  logo_data : ImageData;
  logo_file : option File
}.
Arguments mkLogoImage {ImageData File} _ _.
Arguments logo_data {ImageData File} _.
Arguments logo_file {ImageData File} _.

(** What the handler calls, in order: the data hooks, the account-type
    requests, the hook's [handlePageChange] and the query invalidations. *)
Inductive Call (Data ImageData : Type) : Type :=
  | UpdateBroker (id : string) (data : Data)
  | CreateBroker (data : Data)
  | HandlePageChange (page : Z)
  | DeleteImage (id : string)
  | DeleteFile (bucket path : string)
  | CreateImage (imageData : ImageData) (record_id : string)
  | AccountTypes (request : Pages.Request)
  | InvalidateQueries (key : string).
Arguments UpdateBroker {Data ImageData} _ _.
Arguments CreateBroker {Data ImageData} _.
Arguments HandlePageChange {Data ImageData} _.
Arguments DeleteImage {Data ImageData} _.
Arguments DeleteFile {Data ImageData} _ _.
Arguments CreateImage {Data ImageData} _ _.
Arguments AccountTypes {Data ImageData} _.
Arguments InvalidateQueries {Data ImageData} _.

(** The modal state of the page. *)
Record ModalState (Broker : Type) : Type := mkModalState {
  isModalOpen : bool;
  editingBroker : option Broker
}.
Arguments mkModalState {Broker} _ _.
Arguments isModalOpen {Broker} _.
Arguments editingBroker {Broker} _.

Section Submit.
Context {Broker Data ImageData File : Type}.
(** [broker.id]. *)
Variable broker_id : Broker -> string.
(** Which awaited calls throw. *)
Variable fails : Call Data ImageData -> bool.

(** Whether a call aborts the [try] block: the awaited hook calls and the
    account-type insert (whose error is re-thrown) do when they fail; the
    account-type delete, whose result is not looked at, the page change and
    the invalidations do not. *)
Definition throws (c : Call Data ImageData) : bool :=
  match c with
  | AccountTypes (Pages.DeleteAccountTypes _) => false
  | HandlePageChange _ => false
  | InvalidateQueries _ => false
  | _ => fails c
  end.

(** The calls of a straight-line block up to and including the first one
    that throws, and whether the block ran to its end. *)
Fixpoint attempt (planned : list (Call Data ImageData))
  : list (Call Data ImageData) * bool :=
  match planned with
  | [] => ([], true)
  | c :: rest =>
      if throws c then ([c], false)
      else let '(done, ok) := attempt rest in (c :: done, ok)
  end.

Definition handleCloseModal (st : ModalState Broker) : ModalState Broker :=
  mkModalState false None.

(** [images.find(img => img.record_id === brokerId && img.type === 'logo')]. *)
Definition existingLogo (brokerId : string) (images : list Image) : option Image :=
  List.find (fun img => String.eqb (image_record_id img) brokerId
                        && String.eqb (image_type img) "logo") images.

Definition deleteLogo (logo : Image) : list (Call Data ImageData) :=
  [DeleteImage (image_id logo); DeleteFile "brokers" (image_path logo)].

(** Case 1 (logo removed) and case 2 (new logo) of the handler. *)
Definition logoCalls (brokerId : string) (images : list Image)
    (logoImage : option (LogoImage ImageData File)) : list (Call Data ImageData) :=
  (match logoImage, existingLogo brokerId images with
   | None, Some logo => deleteLogo logo
   | _, _ => []
   end)
  ++ match logoImage with
     | Some li =>
         match logo_file li with
         | Some _ =>
             (match existingLogo brokerId images with
              | Some logo => deleteLogo logo
              | None => []
              end)
             ++ [CreateImage (logo_data li) brokerId]
         | None => []
         end
     | None => []
     end.

Definition invalidations : list (Call Data ImageData) :=
  [InvalidateQueries "brokers"; InvalidateQueries "images"].

(** [handleSubmit]: [newBrokerId] is the id of the broker [createBroker]
    resolves to. The result is the modal state and the calls made. *)
Definition handleSubmit (newBrokerId : string) (data : Data)
    (logoImage : option (LogoImage ImageData File))
    (accountTypes : list Pages.AccountTypeInput) (images : list Image)
    (st : ModalState Broker) : ModalState Broker * list (Call Data ImageData) :=
  let first :=
    match editingBroker st with
    | Some b => [UpdateBroker (broker_id b) data]
    | None => [CreateBroker data; HandlePageChange 1]
    end in
  let brokerId :=
    match editingBroker st with
    | Some b => broker_id b
    | None => newBrokerId
    end in
  let '(done1, ok1) := attempt first in
  if negb ok1 then (st, done1 ++ invalidations)
  else if negb (Js.truthy (Js.VStr brokerId)) then (st, done1 ++ invalidations)
  else
    let '(done2, ok2) :=
      attempt (logoCalls brokerId images logoImage
               ++ List.map AccountTypes (Pages.saveAccountTypes brokerId accountTypes)) in
    (if ok2 then handleCloseModal st else st, done1 ++ done2 ++ invalidations).
End Submit.

Definition is_image_call {Data ImageData : Type} (c : Call Data ImageData) : bool :=
  match c with
  | DeleteImage _ | DeleteFile _ _ | CreateImage _ _ => true
  | _ => false
  end.

End BrokerSubmit.

(** ** More concrete inputs *)

Module Fixtures.

(** Account types as the broker form may submit them: one filled in, one
    with a blank name, one without a name. *)
Definition standard : Pages.AccountTypeInput :=
  Pages.mkAccountTypeInput (Some "Standard"%string) (Js.VStr "1.2") (Js.VStr "")
    Js.VUndefined.

Definition accountTypes : list Pages.AccountTypeInput :=
  [ standard;
    Pages.mkAccountTypeInput (Some "   "%string) (Js.VStr "0.5") Js.VNull Js.VNull;
    Pages.mkAccountTypeInput None Js.VUndefined Js.VUndefined Js.VUndefined ].

Definition blankAccountTypes : list Pages.AccountTypeInput :=
  [ Pages.mkAccountTypeInput (Some "  "%string) Js.VNull Js.VNull Js.VNull ].

(** Posts reduced to their type. *)
Definition postTypes : list string :=
  [ "news"; "event"; "news"; "privacy_policy" ]%string.

(** Translations as (language, title) pairs. *)
Definition translations : list (string * string) :=
  [ ("en", "Hello"); ("vi", "Xin chao") ]%string.

(** A broker under edit is given by its id here; it has a stored logo and
    gets a new one. *)
Definition images : list BrokerSubmit.Image :=
  [ BrokerSubmit.mkImage "img1" "b1" "logo" "logos/b1.png" ].

Definition newLogo : BrokerSubmit.LogoImage string string :=
  BrokerSubmit.mkLogoImage "logos/b1-new.png"%string (Some "b1-new.png"%string).

Definition editing : BrokerSubmit.ModalState string :=
  BrokerSubmit.mkModalState true (Some "b1"%string).

Definition photo : ImageUploadModal.File :=
  ImageUploadModal.mkFile "chart.png" "image/png" 2048.

Definition document : ImageUploadModal.File :=
  ImageUploadModal.mkFile "terms.pdf" "application/pdf" 4096.

End Fixtures.

(** ** Auxiliary notions used to state the properties *)

Module PageEntry.
Import Js Filtering.

(** What the claim asks of the state [st'] reached from [st] when the page
    input holding [text] is committed with [totalPages] pages. *)
Definition accepted_or_reverted (totalPages : Z) (st : FilterState)
    (text : string) (st' : FilterState) : Prop :=
  (forall p : Z, parseInt text = Some p -> 1 <= p <= totalPages ->
     currentPage st' = p)
  /\ (forall p : Z, parseInt text = Some p -> p < 1 \/ totalPages < p ->
     currentPage st' = currentPage st
     /\ pageInputValue st' = toString (currentPage st))
  /\ (parseInt text = None ->
     currentPage st' = currentPage st
     /\ pageInputValue st' = toString (currentPage st)).

End PageEntry.

Module Deletion.
Import Filtering.

(** The step both delete handlers take once the remote delete resolved. *)
Definition step_back (len : nat) (totalPages : Z) (st : FilterState) : FilterState :=
  if Nat.eqb len 1 && (1 <? currentPage st)
  then handlePageChange totalPages (currentPage st - 1) st
  else st.

End Deletion.

Module ErrorMap.
Import Js.

(** The error map once [updateField] has run its guarded clear. *)
Definition cleared (field : string) (e : gmap string string) : gmap string string :=
  if truthy_str (e !! field) then delete field e else e.

End ErrorMap.

Local Abbreviation sample_totalPages :=
  (Filtering.totalPages Sample.searchFields Sample.passesFilter Sample.leb).
Local Abbreviation sample_paginated :=
  (Filtering.paginated Sample.searchFields Sample.passesFilter Sample.leb).
Local Abbreviation sample_filtered :=
  (Filtering.filteredAndSorted Sample.searchFields Sample.passesFilter Sample.leb).
Local Abbreviation sample_count :=
  (Filtering.filteredCount Sample.searchFields Sample.passesFilter Sample.leb).
Local Abbreviation sample_validateField := (Validation.validateField Sample.t).
Local Abbreviation sample_validateForm := (Validation.validateForm Sample.t).

(** * Properties *)

(** ** Built-ins *)

Module JsFacts.
Import Js.

Lemma ceil_div_least (n p : Z) :
  1 <= p -> n <= ceil_div n p * p /\ (ceil_div n p - 1) * p < n.
Proof.
  intros Hp. unfold ceil_div.
  pose proof (Z.div_mod (n + p - 1) p ltac:(lia)) as Hdm.
  pose proof (Z.mod_pos_bound (n + p - 1) p ltac:(lia)) as Hr.
  nia.
Qed.

Lemma ceil_div_unique (n p k : Z) :
  1 <= p -> n <= k * p -> (k - 1) * p < n -> ceil_div n p = k.
Proof.
  intros Hp Hle Hlt. destruct (ceil_div_least n p Hp) as [H1 H2]. nia.
Qed.

Lemma ceil_div_0 (p : Z) : 1 <= p -> ceil_div 0 p = 0.
Proof. intros Hp. apply ceil_div_unique; lia. Qed.

Lemma ceil_div_pos (n p : Z) : 1 <= p -> 1 <= n -> 1 <= ceil_div n p.
Proof.
  intros Hp Hn. destruct (ceil_div_least n p Hp) as [H1 _]. nia.
Qed.

Lemma startsWith_spec (t s : string) :
  startsWith t s = true <-> exists post, s = t +:+ post.
Proof.
  revert s. induction t as [|a t IH]; intros s; simpl.
  - split; [intros _; by exists s | done].
  - destruct s as [|b s].
    + split; [done | intros [post Hpost]; discriminate].
    + destruct (Ascii.eqb_spec a b) as [->|Hne].
      * rewrite IH. split; intros [post Hpost]; exists post.
        -- by rewrite Hpost.
        -- by injection Hpost.
      * split; [done | intros [post Hpost]; injection Hpost as Hab _; congruence].
Qed.

(** [includes] decides the substring relation. *)
Lemma includes_spec (s t : string) :
  includes s t = true <-> exists pre post, s = pre +:+ t +:+ post.
Proof.
  induction s as [|c s IH]; simpl.
  - rewrite orb_false_r, startsWith_spec. split.
    + intros [post Hpost]. by exists ""%string, post.
    + intros [pre [post Hpost]]. destruct pre; [by exists post | discriminate].
  - rewrite orb_true_iff, startsWith_spec, IH. split.
    + intros [[post Hpost] | [pre [post Hpost]]].
      * by exists ""%string, post.
      * exists (String c pre), post. by rewrite Hpost.
    + intros [pre [post Hpost]]. destruct pre as [|c' pre].
      * left. by exists post.
      * right. exists pre, post. by injection Hpost.
Qed.

Lemma truthy_str_Some (s : string) : truthy_str (Some s) = true <-> s <> ""%string.
Proof.
  simpl. destruct (String.eqb_spec s ""); simpl; split; done.
Qed.

End JsFacts.

(** ** The filtering hook *)

Module FilteringFacts.
Import Js Filtering.

Lemma currentPage_handlePageChange (totalPages page : Z) (st : FilterState) :
  currentPage (handlePageChange totalPages page st) = Z.max 1 (Z.min page totalPages).
Proof. reflexivity. Qed.

Lemma handlePageChange_in_range (totalPages page : Z) (st : FilterState) :
  1 <= page <= totalPages ->
  currentPage (handlePageChange totalPages page st) = page.
Proof. intros H. rewrite currentPage_handlePageChange. lia. Qed.

Lemma filter_sublist {A : Type} (f : A -> bool) (l : list A) :
  List.filter f l `sublist_of` l.
Proof.
  induction l as [|x l IH]; simpl; [constructor |].
  destruct (f x); by constructor.
Qed.

Section Hook.
Context {Rec : Type}.
Variable searchFields : Rec -> list string.
Variable passesFilter : string -> string -> Rec -> bool.
Variable leb : string -> Rec -> Rec -> bool.

Local Abbreviation filteredAndSorted := (filteredAndSorted searchFields passesFilter leb).
Local Abbreviation filteredCount := (filteredCount searchFields passesFilter leb).
Local Abbreviation totalPages := (totalPages searchFields passesFilter leb).
Local Abbreviation paginated := (paginated searchFields passesFilter leb).
Local Abbreviation keep := (keep searchFields passesFilter).

Lemma filteredAndSorted_perm (st : FilterState) (records : list Rec) :
  filteredAndSorted st records ≡ₚ List.filter (keep st) records.
Proof. apply merge_sort_Permutation. Qed.

Lemma filteredAndSorted_submseteq (st : FilterState) (records : list Rec) :
  filteredAndSorted st records ⊆+ records.
Proof.
  rewrite filteredAndSorted_perm. apply sublist_submseteq, filter_sublist.
Qed.

Lemma filteredCount_filter (st : FilterState) (records : list Rec) :
  filteredCount st records = Z.of_nat (List.length (List.filter (keep st) records)).
Proof. unfold Filtering.filteredCount. by rewrite filteredAndSorted_perm. Qed.

Lemma filteredCount_nonneg (st : FilterState) (records : list Rec) :
  0 <= filteredCount st records.
Proof. unfold Filtering.filteredCount. lia. Qed.

Lemma totalPages_ge_1 (st : FilterState) (records : list Rec) :
  1 <= totalPages st records.
Proof. unfold Filtering.totalPages. lia. Qed.

Lemma elem_of_filteredAndSorted (st : FilterState) (records : list Rec) (r : Rec) :
  r ∈ filteredAndSorted st records <-> r ∈ records /\ keep st r = true.
Proof.
  rewrite filteredAndSorted_perm, !list_elem_of_In. apply filter_In.
Qed.

Lemma length_paginated (st : FilterState) (records : list Rec) :
  List.length (paginated st records) =
  Nat.min (Z.to_nat (itemsPerPage st))
    (List.length (filteredAndSorted st records)
     - Z.to_nat ((currentPage st - 1) * itemsPerPage st)).
Proof. unfold Filtering.paginated. by rewrite length_take, length_drop. Qed.

Lemma paginated_sublist (st : FilterState) (records : list Rec) :
  paginated st records `sublist_of` filteredAndSorted st records.
Proof.
  unfold Filtering.paginated.
  etrans; [apply sublist_take | apply sublist_drop].
Qed.
End Hook.

End FilteringFacts.

(** ** Page count and page slice *)

Section Pagination.
Context {Rec : Type}.
Variable searchFields : Rec -> list string.
Variable passesFilter : string -> string -> Rec -> bool.
Variable leb : string -> Rec -> Rec -> bool.

Local Abbreviation filteredAndSorted :=
  (Filtering.filteredAndSorted searchFields passesFilter leb).
Local Abbreviation filteredCount :=
  (Filtering.filteredCount searchFields passesFilter leb).
Local Abbreviation totalPages :=
  (Filtering.totalPages searchFields passesFilter leb).
Local Abbreviation paginated :=
  (Filtering.paginated searchFields passesFilter leb).

(** C1.  For a page size P >= 1 the total page count is
    ceil(filteredCount / P) with a minimum of 1, that is
    max(1, ceil(filteredCount / P)), where ceil(filteredCount / P) is the
    least k with filteredCount <= k * P: it is at least 1, it equals
    ceil(filteredCount / P) whenever at least one record passes the filter,
    and the minimum makes it 1 when none does.  With 25 filtered records
    and page size 10 there are 3 pages and page 3 holds exactly 5
    records. *)
Theorem totalPages_ceil_min_1 (st : Filtering.FilterState) (records : list Rec) :
  1 <= Filtering.itemsPerPage st ->
  let n := filteredCount st records in
  let P := Filtering.itemsPerPage st in
  totalPages st records = Z.max 1 (Js.ceil_div n P)
  /\ (n <= Js.ceil_div n P * P /\ (Js.ceil_div n P - 1) * P < n)
  /\ 1 <= totalPages st records
  /\ (1 <= n -> totalPages st records = Js.ceil_div n P)
  /\ (n = 0 -> totalPages st records = 1 /\ Js.ceil_div n P = 0)
  /\ (n = 25 -> P = 10 ->
      totalPages st records = 3
      /\ (Filtering.currentPage st = 3 ->
          List.length (paginated st records) = 5%nat)).
Proof.
  intros HP n P.
  assert (Hn : 0 <= n) by apply FilteringFacts.filteredCount_nonneg.
  assert (Htp : totalPages st records = Z.max 1 (Js.ceil_div n P)) by reflexivity.
  split; [exact Htp |].
  split; [by apply JsFacts.ceil_div_least |].
  split; [lia |].
  split; [| split].
  - intros Hpos. pose proof (JsFacts.ceil_div_pos n P HP Hpos). lia.
  - intros Hz. rewrite Htp, Hz, JsFacts.ceil_div_0 by done. lia.
  - intros H25 H10. rewrite Htp, H25, H10. split; [reflexivity |].
    intros Hc. rewrite FilteringFacts.length_paginated.
    fold P. rewrite Hc, H10.
    unfold n, Filtering.filteredCount in H25.
    assert (List.length (filteredAndSorted st records) = 25%nat) as -> by lia.
    reflexivity.
Qed.

(** C4.  The filtered (and sorted) list is a sub-multiset of the input
    list, and each record in it has a searched text field whose lower-cased
    text contains the lower-cased search term as a substring. *)
Theorem filtered_subset_matches (st : Filtering.FilterState) (records : list Rec) :
  filteredAndSorted st records ⊆+ records
  /\ forall r : Rec, r ∈ filteredAndSorted st records ->
       r ∈ records
       /\ exists f : string, f ∈ searchFields r
            /\ exists pre post : string,
                 Js.toLowerCase f
                 = pre +:+ Js.toLowerCase (Filtering.searchTerm st) +:+ post.
Proof.
  split; [apply FilteringFacts.filteredAndSorted_submseteq |].
  intros r Hr. apply FilteringFacts.elem_of_filteredAndSorted in Hr as [Hin Hkeep].
  split; [done |].
  unfold Filtering.keep in Hkeep. apply andb_true_iff in Hkeep as [Hm _].
  unfold Filtering.matchesSearch in Hm. apply existsb_exists in Hm as [f [Hf Hinc]].
  exists f. split; [by apply list_elem_of_In |].
  by apply JsFacts.includes_spec.
Qed.

End Pagination.

(** C3.  Changing the search term, changing the filter value (the
    FilterDropdown handler of the posts page) or changing the active tab
    leaves the current page at 1, whatever the state and the page count
    were. *)
Theorem page_resets_to_1 (st : Filtering.FilterState) (totalPages : Z) (v : string) :
  (Filtering.currentPage (Filtering.setSearchTerm v st) = 1
   /\ Filtering.searchTerm (Filtering.setSearchTerm v st) = v)
  /\ Filtering.currentPage (Brokers.searchInput_onChange v st) = 1
  /\ Filtering.currentPage (Posts.searchInput_onChange v st) = 1
  /\ (Filtering.currentPage (Posts.filterDropdown_onChange totalPages v st) = 1
      /\ Filtering.filterStatus (Posts.filterDropdown_onChange totalPages v st) = v)
  /\ (Filtering.currentPage (Filtering.handleTabChange v st) = 1
      /\ Filtering.activeTab (Filtering.handleTabChange v st) = v)
  /\ Filtering.currentPage (Posts.tabNavigation_onTabChange v st) = 1.
Proof.
  repeat split.
  unfold Posts.filterDropdown_onChange.
  rewrite FilteringFacts.currentPage_handlePageChange. lia.
Qed.


(** ** Direct page entry *)

Module PageEntryFacts.
Import Js Filtering PageEntry.

Lemma commit_accepted_or_reverted (totalPages : Z) (st : FilterState) (text : string) :
  accepted_or_reverted totalPages st text
    (match parseInt text with
     | Some page =>
         if (1 <=? page) && (page <=? totalPages)
         then handlePageChange totalPages page st
         else setPageInputValue (toString (currentPage st)) st
     | None => setPageInputValue (toString (currentPage st)) st
     end).
Proof.
  unfold accepted_or_reverted.
  destruct (parseInt text) as [page|]; [| by repeat split].
  destruct (Z.leb_spec 1 page), (Z.leb_spec page totalPages); simpl.
  all: split; [| split]; try done.
  all: intros p [= <-] Hp; try lia.
  all: try (rewrite FilteringFacts.handlePageChange_in_range; lia).
  all: done.
Qed.

End PageEntryFacts.

(** C2.  Committing the page input, by blur or by the Enter key, on the
    brokers page and on the posts page: a parsed number within
    [1, totalPages] becomes the current page; a parsed number outside the
    range, or text that does not parse to a number, leaves the current page
    as it was and resets the input buffer to the current page number.  A
    key other than Enter changes nothing.  The handlers return a state and
    nothing else. *)
Theorem page_entry_accepts_or_reverts (totalPages : Z)
    (st : Filtering.FilterState) (text key : string) :
  PageEntry.accepted_or_reverted totalPages st text
    (Brokers.pageInput_onBlur totalPages st text)
  /\ PageEntry.accepted_or_reverted totalPages st text
       (Posts.pageInput_onBlur totalPages st text)
  /\ PageEntry.accepted_or_reverted totalPages st (Filtering.pageInputValue st)
       (Brokers.pageInput_onKeyDown totalPages st "Enter")
  /\ PageEntry.accepted_or_reverted totalPages st (Filtering.pageInputValue st)
       (Posts.pageInput_onKeyDown totalPages st "Enter")
  /\ (key <> "Enter"%string ->
      Brokers.pageInput_onKeyDown totalPages st key = st
      /\ Posts.pageInput_onKeyDown totalPages st key = st).
Proof.
  do 4 (split; [apply PageEntryFacts.commit_accepted_or_reverted |]).
  intros Hkey. unfold Brokers.pageInput_onKeyDown, Posts.pageInput_onKeyDown.
  by destruct (String.eqb_spec key "Enter").
Qed.

(** ** Navigation after a delete *)

Module DeleteFacts.
Import Js Filtering Deletion.


Lemma page_within_ceil (n p c : Z) :
  1 <= p -> 1 <= c -> (c - 1) * p < n -> c <= Z.max 1 (ceil_div n p).
Proof.
  intros Hp Hc Hlt. destruct (JsFacts.ceil_div_least n p Hp) as [Hle _]. nia.
Qed.

Section Hook.
Context {Rec : Type}.
Variable searchFields : Rec -> list string.
Variable passesFilter : string -> string -> Rec -> bool.
Variable leb : string -> Rec -> Rec -> bool.

Local Abbreviation filteredAndSorted :=
  (Filtering.filteredAndSorted searchFields passesFilter leb).
Local Abbreviation filteredCount :=
  (Filtering.filteredCount searchFields passesFilter leb).
Local Abbreviation totalPages :=
  (Filtering.totalPages searchFields passesFilter leb).
Local Abbreviation paginated :=
  (Filtering.paginated searchFields passesFilter leb).

Lemma length_paginated_Z (st : FilterState) (records : list Rec) :
  1 <= itemsPerPage st -> 1 <= currentPage st ->
  Z.of_nat (List.length (paginated st records))
  = Z.max 0 (Z.min (itemsPerPage st)
               (filteredCount st records - (currentPage st - 1) * itemsPerPage st)).
Proof.
  intros Hp Hc. rewrite FilteringFacts.length_paginated.
  unfold Filtering.filteredCount.
  assert (0 <= (currentPage st - 1) * itemsPerPage st) by nia.
  lia.
Qed.

Lemma filteredCount_remove (st : FilterState) (l1 l2 : list Rec) (r : Rec) :
  Filtering.keep searchFields passesFilter st r = true ->
  filteredCount st (l1 ++ l2) = filteredCount st (l1 ++ r :: l2) - 1.
Proof.
  intros Hk. rewrite !FilteringFacts.filteredCount_filter.
  rewrite !List.filter_app. simpl. rewrite Hk.
  rewrite !List.length_app. simpl. lia.
Qed.

Lemma step_back_same_view (len : nat) (tp : Z) (st : FilterState) (records : list Rec) :
  filteredCount (step_back len tp st) records = filteredCount st records
  /\ itemsPerPage (step_back len tp st) = itemsPerPage st.
Proof.
  unfold step_back.
  by destruct (Nat.eqb len 1 && (1 <? currentPage st)).
Qed.

(** After the deleted row [r], shown on the current page, has left the
    list, the page reached by [step_back] exists and is not empty unless
    the whole filtered list is. *)
Lemma step_back_lands (st : FilterState) (l1 l2 : list Rec) (r : Rec) :
  1 <= itemsPerPage st -> 1 <= currentPage st ->
  r ∈ paginated st (l1 ++ r :: l2) ->
  let records := l1 ++ r :: l2 in
  let st' := step_back (List.length (paginated st records)) (totalPages st records) st in
  (List.length (paginated st records) = 1%nat -> 1 < currentPage st ->
     currentPage st' = currentPage st - 1)
  /\ 1 <= currentPage st' <= totalPages st' (l1 ++ l2)
  /\ (filteredAndSorted st' (l1 ++ l2) <> [] -> paginated st' (l1 ++ l2) <> []).
Proof.
  intros Hp Hc Hr records st'.
  assert (Hkeep : Filtering.keep searchFields passesFilter st r = true).
  { eapply FilteringFacts.elem_of_filteredAndSorted.
    eapply elem_of_sublist; [apply Hr | apply FilteringFacts.paginated_sublist]. }
  pose proof (filteredCount_remove st l1 l2 r Hkeep) as Hn'.
  pose proof (length_paginated_Z st records Hp Hc) as Hlen.
  assert (Hlen1 : 1 <= Z.of_nat (List.length (paginated st records))).
  { apply list_elem_of_split in Hr as (a & b & Hab).
    unfold records. rewrite Hab, List.length_app. simpl. lia. }
  fold records in Hn'.
  destruct (step_back_same_view (List.length (paginated st records))
              (totalPages st records) st (l1 ++ l2)) as [Hcnt Hipp].
  fold st' in Hcnt, Hipp.
  set (n := filteredCount st records) in *.
  set (P := itemsPerPage st) in *.
  set (c := currentPage st) in *.
  assert (Hoff : (c - 1) * P < n) by lia.
  assert (Hc' : currentPage st' =
                if Nat.eqb (List.length (paginated st records)) 1 && (1 <? c)
                then c - 1 else c).
  { unfold st', step_back. fold c.
    destruct (Nat.eqb (List.length (paginated st records)) 1 && (1 <? c)) eqn:E;
      [| done].
    apply andb_true_iff in E as [_ E]. apply Z.ltb_lt in E.
    rewrite FilteringFacts.currentPage_handlePageChange.
    pose proof (page_within_ceil n P c Hp Hc Hoff) as Hw.
    unfold Filtering.totalPages. fold n P. lia. }
  assert (Hnonneg : 0 <= filteredCount st' (l1 ++ l2))
    by apply FilteringFacts.filteredCount_nonneg.
  assert (Hgoal : 1 <= currentPage st'
                  /\ (currentPage st' = 1 \/ (currentPage st' - 1) * P < n - 1)
                  /\ (1 <= n - 1 -> (currentPage st' - 1) * P < n - 1)).
  { rewrite Hc'.
    destruct (Nat.eqb_spec (List.length (paginated st records)) 1) as [E1|E1];
      destruct (Z.ltb_spec 1 c) as [E2|E2]; simpl.
    - split; [lia |]. split; [right |]; nia.
    - assert (c = 1) by lia. split; [lia |]. split; [by left |]. nia.
    - assert (2 <= Z.of_nat (List.length (paginated st records))) by lia.
      split; [lia |]. split; [right |]; lia.
    - assert (2 <= Z.of_nat (List.length (paginated st records))) by lia.
      split; [lia |]. split; [right |]; lia. }
  destruct Hgoal as (G1 & G2 & G3).
  split; [| split].
  - intros E1 E2. rewrite Hc'.
    rewrite E1. simpl. destruct (Z.ltb_spec 1 c); [done | lia].
  - split; [done |].
    unfold Filtering.totalPages. rewrite Hcnt, Hipp, Hn'. fold P.
    destruct G2 as [-> | G2]; [lia |].
    by apply page_within_ceil.
  - intros Hne Hnil.
    assert (Hpos : 1 <= n - 1).
    { rewrite <- Hn', <- Hcnt. unfold Filtering.filteredCount.
      destruct (filteredAndSorted st' (l1 ++ l2)); [done | simpl; lia]. }
    pose proof (length_paginated_Z st' (l1 ++ l2)) as Hl.
    rewrite Hipp, Hcnt, Hn', Hnil in Hl. fold P in Hl. simpl in Hl.
    specialize (G3 Hpos). specialize (Hl Hp G1). lia.
Qed.

End Hook.

End DeleteFacts.

(** C10.  After a successful delete of a row shown on the current page
    (page size and page number at least 1), both delete handlers step back
    one page exactly when that row was the only one on the page and the
    page number exceeds 1; in every case the resulting page number lies
    within [1, totalPages] of the list without the row, and its slice is
    not empty unless no record is left after filtering. *)
Theorem delete_never_strands_page {Rec : Type}
    (searchFields : Rec -> list string)
    (passesFilter : string -> string -> Rec -> bool)
    (leb : string -> Rec -> Rec -> bool)
    (st : Filtering.FilterState) (l1 l2 : list Rec) (r : Rec)
    (dialog : Brokers.ConfirmDialog) (confirm : Posts.DeleteConfirm Rec) :
  1 <= Filtering.itemsPerPage st -> 1 <= Filtering.currentPage st ->
  r ∈ Filtering.paginated searchFields passesFilter leb st (l1 ++ r :: l2) ->
  Js.truthy_str (Brokers.brokerId dialog) = true ->
  Posts.post confirm = Some r ->
  let records := l1 ++ r :: l2 in
  let shown := Filtering.paginated searchFields passesFilter leb st records in
  let pages := Filtering.totalPages searchFields passesFilter leb st records in
  forall st' : Filtering.FilterState,
    st' = fst (Brokers.handleConfirmDelete dialog true shown pages st)
    \/ st' = fst (Posts.confirmDelete confirm true shown pages st) ->
    (List.length shown = 1%nat -> 1 < Filtering.currentPage st ->
       Filtering.currentPage st' = Filtering.currentPage st - 1)
    /\ 1 <= Filtering.currentPage st'
       <= Filtering.totalPages searchFields passesFilter leb st' (l1 ++ l2)
    /\ (Filtering.filteredAndSorted searchFields passesFilter leb st' (l1 ++ l2) <> [] ->
        Filtering.paginated searchFields passesFilter leb st' (l1 ++ l2) <> []).
Proof.
  intros Hp Hc Hr Hid Hpost records shown pages st' Hst'.
  assert (st' = Deletion.step_back (List.length shown) pages st) as ->.
  { destruct Hst' as [-> | ->].
    - unfold Brokers.handleConfirmDelete. by rewrite Hid.
    - unfold Posts.confirmDelete. by rewrite Hpost. }
  by apply DeleteFacts.step_back_lands.
Qed.

(** ** The form hook *)

Module FormFacts.
Import Js FormValidation ErrorMap.

Section Hook.
Context {Rule : Type}.
Variable validateField : Js.value -> Rule -> string -> FieldValidationResult.
Variable validateForm :
  gmap string Js.value -> gmap string Rule -> FormValidationResult.
Variable schema : gmap string Rule.

Local Abbreviation updateField := (FormValidation.updateField validateField schema).
Local Abbreviation handleSubmit := (FormValidation.handleSubmit validateForm schema).


Lemma cleared_lookup_eq (field : string) (e : gmap string string) :
  e !! field <> Some ""%string -> cleared field e !! field = None.
Proof.
  intros Hne. unfold cleared. destruct (e !! field) as [s|] eqn:E; simpl.
  - destruct (String.eqb_spec s ""); simpl.
    + by subst s.
    + apply lookup_delete_eq.
  - done.
Qed.

Lemma cleared_lookup_ne (field g : string) (e : gmap string string) :
  g <> field -> cleared field e !! g = e !! g.
Proof.
  intros Hne. unfold cleared.
  destruct (truthy_str (e !! field)); [by apply lookup_delete_ne | done].
Qed.

Lemma updateField_off (field : string) (v : Js.value) (st : FormState) :
  errors (updateField false field v st) = cleared field (errors st)
  /\ data (updateField false field v st) = <[field := v]> (data st).
Proof.
  unfold FormValidation.updateField, cleared. cbn [data errors with_data].
  by case_match.
Qed.

Lemma updateField_data (b : bool) (field : string) (v : Js.value) (st : FormState) :
  data (updateField b field v st) = <[field := v]> (data st).
Proof.
  unfold FormValidation.updateField. repeat case_match; done.
Qed.

Lemma updateField_no_rule (field : string) (v : Js.value) (st : FormState) :
  schema !! field = None ->
  errors (updateField true field v st) = cleared field (errors st).
Proof.
  intros Hs. unfold FormValidation.updateField, cleared. rewrite Hs.
  cbn [data errors with_data]. by case_match.
Qed.

Lemma updateField_rule (field : string) (v : Js.value) (st : FormState) (rule : Rule) :
  schema !! field = Some rule ->
  errors (updateField true field v st)
  = match fr_error (validateField v rule field) with
    | Some e =>
        if negb (fr_isValid (validateField v rule field)) && truthy_str (Some e)
        then <[field := e]> (cleared field (errors st))
        else cleared field (errors st)
    | None => cleared field (errors st)
    end.
Proof.
  intros Hs. unfold FormValidation.updateField, cleared. rewrite Hs.
  cbn [data errors with_data].
  destruct (fr_error (validateField v rule field)) as [e|];
    [destruct (negb (fr_isValid (validateField v rule field)) && truthy_str (Some e)) |];
    by case_match.
Qed.

Lemma isValid_false (st : FormState) : errors st <> ∅ -> isValid st = false.
Proof.
  intros Hne. unfold isValid. apply Nat.eqb_neq. by apply map_size_non_empty_iff.
Qed.

End Hook.

End FormFacts.

Module ValidationFacts.
Import Js FormValidation.

Section Translated.
Variable t : string -> string.

Lemma validateForm_errors_lookup (d : gmap string Js.value)
    (schema : gmap string Validation.ValidationRule) (f : string) :
  vf_errors (Validation.validateForm t d schema) !! f
  = schema !! f ≫= fun rule =>
      let r := Validation.validateField t (read d f) rule f in
      if fr_isValid r then None else fr_error r.
Proof. unfold Validation.validateForm. simpl. apply map_lookup_imap. Qed.

Lemma validateForm_invalid_nonempty (d : gmap string Js.value)
    (schema : gmap string Validation.ValidationRule) :
  vf_isValid (Validation.validateForm t d schema) = false <->
  vf_errors (Validation.validateForm t d schema) <> ∅.
Proof.
  unfold Validation.validateForm. simpl.
  rewrite Nat.eqb_neq. apply map_size_non_empty_iff.
Qed.

Lemma validateField_invalid_error (v : Js.value) (rule : Validation.ValidationRule)
    (f : string) :
  fr_isValid (Validation.validateField t v rule f) = false ->
  fr_error (Validation.validateField t v rule f)
  = Some (default (t f) (Validation.message rule)).
Proof. unfold Validation.validateField. by case_match. Qed.

(** The entries of the error map are exactly the fields failing their rule. *)
Lemma validateForm_errors_failing (d : gmap string Js.value)
    (schema : gmap string Validation.ValidationRule) (f : string) :
  is_Some (vf_errors (Validation.validateForm t d schema) !! f) <->
  exists rule, schema !! f = Some rule
    /\ fr_isValid (Validation.validateField t (read d f) rule f) = false.
Proof.
  rewrite validateForm_errors_lookup. destruct (schema !! f) as [rule|]; simpl.
  - destruct (fr_isValid (Validation.validateField t (read d f) rule f)) eqn:E.
    + split; [by intros [? ?] | intros (rule' & [= <-] & Hr); congruence].
    + rewrite (validateField_invalid_error _ _ _ E).
      split; [intros _; by exists rule | by eexists].
  - split; [by intros [? ?] | by intros (rule & ? & _)].
Qed.

End Translated.

End ValidationFacts.

(** What [updateField(f, v)] does, in every case.  It stores [v] and
    leaves the error entries of the other fields alone.  Its first step
    removes the entry of [f] when that entry is a non-empty message; the
    guard tests the truthiness of [errors[f]], so an entry holding the
    empty string is not removed.  It then re-validates [f] exactly when
    validate-on-change is on and [f] has a schema rule: the entry of [f]
    becomes the message when the value fails the rule with a non-empty
    message, and is otherwise what the first step left, nothing or the
    empty string. *)
Theorem updateField_clears_then_revalidates {Rule : Type}
    (validateField : Js.value -> Rule -> string -> FormValidation.FieldValidationResult)
    (schema : gmap string Rule) (validateOnChange : bool)
    (field : string) (v : Js.value) (st : FormValidation.FormState) :
  let st' := FormValidation.updateField validateField schema validateOnChange field v st in
  FormValidation.data st' !! field = Some v
  /\ (forall g : string, g <> field ->
        FormValidation.errors st' !! g = FormValidation.errors st !! g)
  /\ (FormValidation.errors st !! field <> Some ""%string ->
        (validateOnChange = false \/ schema !! field = None ->
           FormValidation.errors st' !! field = None)
        /\ (forall rule : Rule,
              validateOnChange = true -> schema !! field = Some rule ->
              let r := validateField v rule field in
              (forall e : string,
                 FormValidation.fr_isValid r = false ->
                 FormValidation.fr_error r = Some e -> e <> ""%string ->
                 FormValidation.errors st' !! field = Some e)
              /\ (FormValidation.fr_isValid r = true
                  \/ FormValidation.fr_error r = None
                  \/ FormValidation.fr_error r = Some ""%string ->
                  FormValidation.errors st' !! field = None)))
  /\ (FormValidation.errors st !! field = Some ""%string ->
        (validateOnChange = false \/ schema !! field = None ->
           FormValidation.errors st' !! field = Some ""%string)
        /\ (forall rule : Rule,
              validateOnChange = true -> schema !! field = Some rule ->
              let r := validateField v rule field in
              (forall e : string,
                 FormValidation.fr_isValid r = false ->
                 FormValidation.fr_error r = Some e -> e <> ""%string ->
                 FormValidation.errors st' !! field = Some e)
              /\ (FormValidation.fr_isValid r = true
                  \/ FormValidation.fr_error r = None
                  \/ FormValidation.fr_error r = Some ""%string ->
                  FormValidation.errors st' !! field = Some ""%string))).
Proof.
  intros st'.
  assert (Herr : FormValidation.errors st' =
    if validateOnChange then
      match schema !! field with
      | Some rule =>
          match FormValidation.fr_error (validateField v rule field) with
          | Some e =>
              if negb (FormValidation.fr_isValid (validateField v rule field))
                 && Js.truthy_str (Some e)
              then <[field := e]> (ErrorMap.cleared field (FormValidation.errors st))
              else ErrorMap.cleared field (FormValidation.errors st)
          | None => ErrorMap.cleared field (FormValidation.errors st)
          end
      | None => ErrorMap.cleared field (FormValidation.errors st)
      end
    else ErrorMap.cleared field (FormValidation.errors st)).
  { unfold st'. destruct validateOnChange.
    - destruct (schema !! field) as [rule|] eqn:Hs.
      + by apply FormFacts.updateField_rule.
      + by apply FormFacts.updateField_no_rule.
    - apply FormFacts.updateField_off. }
  split; [| split; [| split]].
  - unfold st'. rewrite FormFacts.updateField_data. apply lookup_insert_eq.
  - intros g Hg. rewrite Herr.
    repeat case_match;
      rewrite ?lookup_insert_ne by done; by apply FormFacts.cleared_lookup_ne.
  - intros Hne.
    pose proof (FormFacts.cleared_lookup_eq field _ Hne) as Hc.
    split.
    + intros [-> | Hs]; rewrite Herr; [done |].
      rewrite Hs. by case_match.
    + intros rule -> Hs r. rewrite Herr, Hs. fold r. split.
      * intros e Hinv He Hnon. rewrite He, Hinv.
        apply JsFacts.truthy_str_Some in Hnon. rewrite Hnon. simpl.
        apply lookup_insert_eq.
      * intros [Hv | [He | He]].
        -- rewrite Hv. destruct (FormValidation.fr_error r); simpl; exact Hc.
        -- by rewrite He.
        -- rewrite He. simpl. by rewrite andb_false_r.
  - intros He.
    assert (Hc : ErrorMap.cleared field (FormValidation.errors st) !! field
                 = Some ""%string).
    { unfold ErrorMap.cleared. by rewrite He. }
    split.
    + intros [-> | Hs]; rewrite Herr; [done |].
      rewrite Hs. by case_match.
    + intros rule -> Hs r. rewrite Herr, Hs. fold r. split.
      * intros e Hinv Herror Hnon. rewrite Herror, Hinv.
        apply JsFacts.truthy_str_Some in Hnon. rewrite Hnon. simpl.
        apply lookup_insert_eq.
      * intros [Hv | [Herror | Herror]].
        -- rewrite Hv. destruct (FormValidation.fr_error r); simpl; exact Hc.
        -- by rewrite Herror.
        -- rewrite Herror. simpl. by rewrite andb_false_r.
Qed.

(** C7.  With validate-on-submit on and a failing whole-schema validation,
    [handleSubmit] does not call [onSubmit], marks every schema field
    touched, and stores the validation's error map, so that [isValid] is
    false once that map is not empty.  The validation of the form utilities
    fails exactly with a non-empty map whose entries are the failing
    fields, and for the schema {name: required, minLength 2} with data
    {name: ""} the map has an entry for name and [onSubmit] is not
    called. *)
Theorem handleSubmit_invalid_aborts :
  (forall (Rule : Type)
      (validateForm : gmap string Js.value -> gmap string Rule ->
                      FormValidation.FormValidationResult)
      (schema : gmap string Rule) (st : FormValidation.FormState),
      let result := validateForm (FormValidation.data st) schema in
      let out := FormValidation.handleSubmit validateForm schema true st in
      FormValidation.vf_isValid result = false ->
      snd out = None
      /\ (forall f : string, is_Some (schema !! f) ->
            FormValidation.touched (fst out) !! f = Some true)
      /\ FormValidation.errors (fst out) = FormValidation.vf_errors result
      /\ FormValidation.data (fst out) = FormValidation.data st
      /\ (FormValidation.vf_errors result <> ∅ ->
          FormValidation.isValid (fst out) = false))
  /\ (forall (t : string -> string)
        (schema : gmap string Validation.ValidationRule)
        (st : FormValidation.FormState),
      let out := FormValidation.handleSubmit (Validation.validateForm t) schema true st in
      FormValidation.vf_isValid
        (Validation.validateForm t (FormValidation.data st) schema) = false ->
      snd out = None
      /\ FormValidation.isValid (fst out) = false
      /\ (forall f : string,
            is_Some (FormValidation.errors (fst out) !! f) <->
            exists rule, schema !! f = Some rule
              /\ FormValidation.fr_isValid
                   (Validation.validateField t
                      (FormValidation.read (FormValidation.data st) f) rule f)
                 = false))
  /\ (forall t : string -> string,
      let out := FormValidation.handleSubmit (Validation.validateForm t)
                   Sample.name_schema true Sample.empty_name_form in
      snd out = None
      /\ FormValidation.errors (fst out) !! "name"%string = Some (t "name"%string)
      /\ FormValidation.isValid (fst out) = false
      /\ FormValidation.touched (fst out) !! "name"%string = Some true).
Proof.
  assert (Hgen : forall (Rule : Type)
      (validateForm : gmap string Js.value -> gmap string Rule ->
                      FormValidation.FormValidationResult)
      (schema : gmap string Rule) (st : FormValidation.FormState),
      FormValidation.vf_isValid (validateForm (FormValidation.data st) schema) = false ->
      FormValidation.handleSubmit validateForm schema true st
      = (FormValidation.mkFormState (FormValidation.data st)
           (FormValidation.vf_errors (validateForm (FormValidation.data st) schema))
           ((fun _ => true) <$> schema) false, None)).
  { intros Rule validateForm schema st Hinv.
    unfold FormValidation.handleSubmit, FormValidation.validateFormFn.
    by rewrite Hinv. }
  split; [| split].
  - intros Rule validateForm schema st result out Hinv.
    unfold out. rewrite (Hgen _ _ _ _ Hinv). simpl.
    split; [done |]. split; [| split; [done | split; [done |]]].
    + intros f [rule Hf]. by rewrite lookup_fmap, Hf.
    + intros Hne. by apply FormFacts.isValid_false.
  - intros t schema st out Hinv.
    unfold out. rewrite (Hgen _ _ _ _ Hinv). simpl.
    split; [done |]. split.
    + apply FormFacts.isValid_false. simpl.
      by apply ValidationFacts.validateForm_invalid_nonempty.
    + intros f. apply ValidationFacts.validateForm_errors_failing.
  - intros t out.
    assert (Hinv : FormValidation.vf_isValid
              (Validation.validateForm t
                 (FormValidation.data Sample.empty_name_form) Sample.name_schema)
            = false) by reflexivity.
    unfold out. rewrite (Hgen _ _ _ _ Hinv).
    cbn [fst snd FormValidation.errors FormValidation.touched].
    split; [done |]. split; [| split].
    + rewrite ValidationFacts.validateForm_errors_lookup.
      unfold Sample.name_schema. by rewrite lookup_singleton_eq.
    + apply FormFacts.isValid_false.
      by apply ValidationFacts.validateForm_invalid_nonempty.
    + unfold Sample.name_schema. by rewrite lookup_fmap, lookup_singleton_eq.
Qed.

(** C8, as amended.  The hook's [handleChange] on an input of type number
    stores [undefined] for the empty string.  The established_in input of
    the broker form is bound to the form's own
    [handleEstablishedYearChange], which stores [null] for the empty
    string: neither 0 nor NaN, and not [undefined] either. *)
Theorem numeric_empty_string_value {Rule : Type}
    (validateField : Js.value -> Rule -> string -> FormValidation.FieldValidationResult)
    (Number : string -> Js.value)
    (schema : gmap string Rule) (validateOnChange : bool)
    (field : string) (target : FormValidation.ChangeTarget)
    (st : FormValidation.FormState) :
  (FormValidation.type target = "number"%string ->
   FormValidation.value target = ""%string ->
   FormValidation.data
     (FormValidation.handleChange validateField Number schema validateOnChange
        field target st) !! field = Some Js.VUndefined)
  /\ FormValidation.data
       (BrokerForm.handleEstablishedYearChange validateField schema "" st)
       !! "established_in"%string = Some Js.VNull.
Proof.
  split.
  - intros Htype Hvalue. unfold FormValidation.handleChange.
    rewrite Htype, Hvalue. simpl.
    rewrite FormFacts.updateField_data. apply lookup_insert_eq.
  - unfold BrokerForm.handleEstablishedYearChange, BrokerForm.updateField.
    rewrite FormFacts.updateField_data. apply lookup_insert_eq.
Qed.

(** C9.  For a field without a rule in the schema, [validateField(f)]
    returns a valid result and leaves the state, and so the error map,
    exactly as it was, whatever the field holds. *)
Theorem validateFieldFn_without_rule {Rule : Type}
    (validateField : Js.value -> Rule -> string -> FormValidation.FieldValidationResult)
    (schema : gmap string Rule) (field : string) (st : FormValidation.FormState) :
  schema !! field = None ->
  let out := FormValidation.validateFieldFn validateField schema field st in
  FormValidation.fr_isValid (snd out) = true
  /\ FormValidation.fr_error (snd out) = None
  /\ fst out = st
  /\ FormValidation.errors (fst out) !! field = FormValidation.errors st !! field.
Proof.
  intros Hs out. unfold out, FormValidation.validateFieldFn. by rewrite Hs.
Qed.

(** ** The statements at concrete inputs *)

Example parseInt_plain : Js.parseInt "3" = Some 3.
Proof. reflexivity. Qed.

Example parseInt_suffix : Js.parseInt " 12abc" = Some 12.
Proof. reflexivity. Qed.

Example parseInt_hex : Js.parseInt "0x1F" = Some 31.
Proof. reflexivity. Qed.

Example parseInt_negative : Js.parseInt "-4" = Some (-4).
Proof. reflexivity. Qed.

Example parseInt_empty : Js.parseInt "" = None.
Proof. reflexivity. Qed.

Example parseInt_letters : Js.parseInt "abc" = None.
Proof. reflexivity. Qed.

Example toString_7 : Js.toString 7 = "7"%string.
Proof. reflexivity. Qed.

Example includes_ignoring_case :
  Js.includes (Js.toLowerCase "Alpha FX") (Js.toLowerCase "HA F") = true.
Proof. reflexivity. Qed.

Example search_lon :
  Sample.name <$> Filtering.filteredAndSorted Sample.searchFields Sample.passesFilter
                    Sample.leb (Sample.searching "LON") Sample.brokers
  = ["Alpha FX"%string].
Proof. vm_compute. reflexivity. Qed.

Example totalPages_of_empty_list :
  sample_count Sample.initial [] = 0
  /\ sample_totalPages Sample.initial [] = 1.
Proof. split; reflexivity. Qed.

Lemma totalPages_ceil_min_1_witness :
  1 <= Filtering.itemsPerPage Sample.third_of_ten
  /\ sample_count Sample.third_of_ten Sample.many = 25
  /\ sample_totalPages Sample.third_of_ten Sample.many = 3
  /\ List.length (sample_paginated Sample.third_of_ten Sample.many) = 5%nat.
Proof.
  assert (Hp : 1 <= Filtering.itemsPerPage Sample.third_of_ten)
    by (vm_compute; discriminate).
  assert (Hn : sample_count Sample.third_of_ten Sample.many = 25)
    by (vm_compute; reflexivity).
  split; [exact Hp |]. split; [exact Hn |].
  destruct (totalPages_ceil_min_1 Sample.searchFields Sample.passesFilter Sample.leb
              Sample.third_of_ten Sample.many Hp) as (_ & _ & _ & _ & _ & Hsc).
  destruct (Hsc Hn eq_refl) as [H3 H5].
  split; [exact H3 | exact (H5 eq_refl)].
Defined.

Lemma page_entry_accepts_or_reverts_witness :
  "Tab"%string <> "Enter"%string
  /\ Filtering.currentPage (Brokers.pageInput_onBlur 3 Sample.initial "2") = 2
  /\ Filtering.pageInputValue (Posts.pageInput_onBlur 3 Sample.second_page "7")
     = "2"%string
  /\ Brokers.pageInput_onKeyDown 3 Sample.initial "Tab" = Sample.initial.
Proof.
  assert (Hkey : "Tab"%string <> "Enter"%string) by discriminate.
  split; [exact Hkey |].
  destruct (page_entry_accepts_or_reverts 3 Sample.initial "2" "Tab")
    as ((Hacc & _ & _) & _ & _ & _ & Hother).
  destruct (page_entry_accepts_or_reverts 3 Sample.second_page "7" "Tab")
    as (_ & (_ & Hrej & _) & _).
  split; [apply (Hacc 2); [reflexivity | lia] |].
  split; [apply (Hrej 7); [reflexivity | lia] |].
  apply (Hother Hkey).
Defined.

Lemma filtered_subset_matches_witness :
  exists r : Sample.Broker,
    r ∈ sample_filtered (Sample.searching "LON") Sample.brokers
    /\ r ∈ Sample.brokers
    /\ exists f : string, f ∈ Sample.searchFields r
         /\ exists pre post : string, Js.toLowerCase f = pre +:+ "lon" +:+ post.
Proof.
  exists (Sample.broker "b1" "Alpha FX" "London" 1999).
  assert (Hin : Sample.broker "b1" "Alpha FX" "London" 1999
                ∈ sample_filtered (Sample.searching "LON") Sample.brokers)
    by (vm_compute; constructor).
  split; [exact Hin |].
  exact (proj2 (filtered_subset_matches Sample.searchFields Sample.passesFilter
                  Sample.leb (Sample.searching "LON") Sample.brokers) _ Hin).
Defined.


(** C6.  [updateField(f, v)] is to remove any existing error entry of
    [f], as its comment says and as [clearError] and [validateField] do;
    it misses the entry that holds the empty message.  On the broker form,
    after [setError("name", "")], [updateField("name", "Al")] leaves the
    entry of name in the error map and the form invalid, although
    [clearError("name")] and a passing [validateField("name")] both remove
    it from the same states. *)
Lemma updateField_keeps_empty_message :
  let st := FormValidation.setError "name" "" Sample.broker_form in
  let st' := FormValidation.updateField sample_validateField
               (Sample.BROKER_FORM_SCHEMA 2025) false "name" (Js.VStr "Al") st in
  FormValidation.errors st !! "name"%string = Some ""%string
  /\ FormValidation.errors st' !! "name"%string = Some ""%string
  /\ FormValidation.errors st' !! "name"%string <> None
  /\ FormValidation.isValid st' = false
  /\ FormValidation.errors (FormValidation.clearError "name" st) !! "name"%string
     = None
  /\ FormValidation.errors
       (fst (FormValidation.validateFieldFn sample_validateField
               (Sample.BROKER_FORM_SCHEMA 2025) "name" st')) !! "name"%string
     = None.
Proof. vm_compute. repeat split; discriminate. Qed.

Lemma updateField_clears_then_revalidates_witness :
  let st := FormValidation.setError "name" "too short" Sample.empty_name_form in
  FormValidation.errors st !! "name"%string <> Some ""%string
  /\ FormValidation.errors
       (FormValidation.updateField sample_validateField Sample.name_schema false
          "name" (Js.VStr "Al") st) !! "name"%string = None
  /\ FormValidation.errors
       (FormValidation.updateField sample_validateField Sample.name_schema true
          "name" (Js.VStr "A") st) !! "name"%string = Some "validation.name"%string.
Proof.
  intros st.
  assert (Hne : FormValidation.errors st !! "name"%string <> Some ""%string)
    by (vm_compute; discriminate).
  split; [exact Hne |]. split.
  - destruct (updateField_clears_then_revalidates sample_validateField
                Sample.name_schema false "name" (Js.VStr "Al") st)
      as (_ & _ & Hclr & _).
    apply (proj1 (Hclr Hne)). by left.
  - destruct (updateField_clears_then_revalidates sample_validateField
                Sample.name_schema true "name" (Js.VStr "A") st)
      as (_ & _ & Hclr & _).
    destruct (proj2 (Hclr Hne)
                (Validation.mkRule true (Some 2) None None None None None)
                eq_refl eq_refl) as [Hadd _].
    apply Hadd; [reflexivity | reflexivity | discriminate].
Defined.

Lemma handleSubmit_invalid_aborts_witness :
  FormValidation.vf_isValid
    (sample_validateForm (FormValidation.data Sample.empty_name_form)
       Sample.name_schema) = false
  /\ snd (FormValidation.handleSubmit sample_validateForm Sample.name_schema true
            Sample.empty_name_form) = None
  /\ FormValidation.touched
       (fst (FormValidation.handleSubmit sample_validateForm Sample.name_schema true
               Sample.empty_name_form)) !! "name"%string = Some true.
Proof.
  assert (Hinv : FormValidation.vf_isValid
            (sample_validateForm (FormValidation.data Sample.empty_name_form)
               Sample.name_schema) = false) by reflexivity.
  split; [exact Hinv |].
  destruct (proj1 handleSubmit_invalid_aborts _ sample_validateForm
              Sample.name_schema Sample.empty_name_form Hinv)
    as (Hcall & Htouched & _).
  split; [exact Hcall |].
  apply Htouched. exists (Validation.mkRule true (Some 2) None None None None None).
  reflexivity.
Defined.

(** C8 as written fails on the established_in input of the broker form:
    the empty string stores [null] there. *)
Lemma established_in_empty_is_null :
  let st' := BrokerForm.handleEstablishedYearChange sample_validateField
               (Sample.BROKER_FORM_SCHEMA 2025) "" Sample.broker_form in
  FormValidation.data st' !! "established_in"%string = Some Js.VNull
  /\ FormValidation.data st' !! "established_in"%string <> Some Js.VUndefined.
Proof. vm_compute. split; [reflexivity | discriminate]. Qed.

Lemma numeric_empty_string_value_witness :
  let target := FormValidation.mkChangeTarget "" "number" false in
  FormValidation.type target = "number"%string
  /\ FormValidation.value target = ""%string
  /\ FormValidation.data
       (FormValidation.handleChange sample_validateField Sample.Number
          (Sample.BROKER_FORM_SCHEMA 2025) false "established_in" target
          Sample.broker_form) !! "established_in"%string = Some Js.VUndefined.
Proof.
  intros target. split; [reflexivity |]. split; [reflexivity |].
  apply (proj1 (numeric_empty_string_value sample_validateField Sample.Number
                  (Sample.BROKER_FORM_SCHEMA 2025) false "established_in" target
                  Sample.broker_form)); reflexivity.
Defined.

Lemma validateFieldFn_without_rule_witness :
  Sample.name_schema !! "email"%string = None
  /\ FormValidation.fr_isValid
       (snd (FormValidation.validateFieldFn sample_validateField Sample.name_schema
               "email" Sample.empty_name_form)) = true
  /\ fst (FormValidation.validateFieldFn sample_validateField Sample.name_schema
            "email" Sample.empty_name_form) = Sample.empty_name_form.
Proof.
  assert (Hs : Sample.name_schema !! "email"%string = None) by reflexivity.
  split; [exact Hs |].
  destruct (validateFieldFn_without_rule sample_validateField Sample.name_schema
              "email" Sample.empty_name_form Hs) as (Hv & _ & Hst & _).
  split; [exact Hv | exact Hst].
Defined.

Lemma delete_never_strands_page_witness :
  let b1 := Sample.broker "b1" "Alpha FX" "London" 1999 in
  let b2 := Sample.broker "b2" "Beta Markets" "Sydney" 2005 in
  let b3 := Sample.broker "b3" "Gamma Trade" "New York" 1987 in
  let dialog := Brokers.mkConfirmDialog true (Some "b3"%string) (Some "Gamma Trade"%string) in
  let st' := fst (Brokers.handleConfirmDelete dialog true
                    (sample_paginated Sample.second_page Sample.brokers)
                    (sample_totalPages Sample.second_page Sample.brokers)
                    Sample.second_page) in
  b3 ∈ sample_paginated Sample.second_page ([b1; b2] ++ b3 :: [])
  /\ Filtering.currentPage st' = 1
  /\ 1 <= Filtering.currentPage st' <= sample_totalPages st' ([b1; b2] ++ []).
Proof.
  intros b1 b2 b3 dialog st'.
  assert (Hin : b3 ∈ sample_paginated Sample.second_page ([b1; b2] ++ b3 :: []))
    by (vm_compute; constructor).
  split; [exact Hin |].
  destruct (delete_never_strands_page Sample.searchFields Sample.passesFilter
              Sample.leb Sample.second_page [b1; b2] [] b3 dialog
              (Posts.mkDeleteConfirm true (Some b3) false)
              ltac:(vm_compute; discriminate) ltac:(vm_compute; discriminate)
              Hin eq_refl eq_refl st' (or_introl eq_refl))
    as (Hback & Hrange & _).
  split; [| exact Hrange].
  rewrite (Hback eq_refl eq_refl). reflexivity.
Defined.

(** * Further properties of the embedded code *)

(** ** The form hook *)

Module HookFacts.
Import Js FormValidation.

Lemma delete_cleared (field : string) (e : gmap string string) :
  e !! field <> Some ""%string -> ErrorMap.cleared field e = delete field e.
Proof.
  intros Hne. unfold ErrorMap.cleared.
  destruct (e !! field) as [s|] eqn:E; simpl.
  - destruct (String.eqb_spec s ""); [by subst s | done].
  - symmetry. by apply delete_id.
Qed.

Lemma cleared_idem (field : string) (e : gmap string string) :
  ErrorMap.cleared field (ErrorMap.cleared field e) = ErrorMap.cleared field e.
Proof.
  unfold ErrorMap.cleared at 2 3.
  destruct (truthy_str (e !! field)) eqn:E.
  - unfold ErrorMap.cleared. by rewrite lookup_delete_eq.
  - unfold ErrorMap.cleared. by rewrite E.
Qed.

Lemma cleared_subseteq (field : string) (e : gmap string string) :
  ErrorMap.cleared field e ⊆ e.
Proof.
  unfold ErrorMap.cleared. case_match; [apply delete_subseteq | done].
Qed.

End HookFacts.

(** X1.  For a field that has a rule, [validateField(f)] returns what the
    rule's validation of the stored value returns, and brings the error
    entry of [f] in line with it: the message when the value is invalid
    with a non-empty message, no entry otherwise (a stale entry, even an
    empty one, is removed).  Data, touched flags and the errors of the
    other fields stay as they were. *)
Theorem validateFieldFn_with_rule {Rule : Type}
    (validateField : Js.value -> Rule -> string -> FormValidation.FieldValidationResult)
    (schema : gmap string Rule) (field : string) (rule : Rule)
    (st : FormValidation.FormState) :
  schema !! field = Some rule ->
  let result :=
    validateField (FormValidation.read (FormValidation.data st) field) rule field in
  let out := FormValidation.validateFieldFn validateField schema field st in
  snd out = result
  /\ FormValidation.data (fst out) = FormValidation.data st
  /\ FormValidation.touched (fst out) = FormValidation.touched st
  /\ (forall g : string, g <> field ->
        FormValidation.errors (fst out) !! g = FormValidation.errors st !! g)
  /\ (forall e : string,
        FormValidation.fr_isValid result = false ->
        FormValidation.fr_error result = Some e -> e <> ""%string ->
        FormValidation.errors (fst out) !! field = Some e)
  /\ (FormValidation.fr_isValid result = true
      \/ FormValidation.fr_error result = None
      \/ FormValidation.fr_error result = Some ""%string ->
      FormValidation.errors (fst out) !! field = None).
Proof.
  intros Hs result out.
  assert (Hout : out =
    match FormValidation.fr_error result with
    | Some e =>
        if negb (FormValidation.fr_isValid result) && Js.truthy_str (Some e)
        then (FormValidation.with_errors
                (<[field := e]> (FormValidation.errors st)) st, result)
        else (FormValidation.with_errors
                (delete field (FormValidation.errors st)) st, result)
    | None => (FormValidation.with_errors
                 (delete field (FormValidation.errors st)) st, result)
    end).
  { unfold out, FormValidation.validateFieldFn. by rewrite Hs. }
  rewrite Hout. clear Hout out.
  split; [by repeat case_match |].
  split; [by repeat case_match |].
  split; [by repeat case_match |].
  split; [| split].
  - intros g Hg. repeat case_match; simpl;
      by rewrite ?lookup_insert_ne, ?lookup_delete_ne by done.
  - intros e Hinv He Hnon. rewrite He, Hinv.
    apply JsFacts.truthy_str_Some in Hnon. rewrite Hnon. simpl.
    apply lookup_insert_eq.
  - intros [Hv | [He | He]].
    + rewrite Hv. destruct (FormValidation.fr_error result); simpl;
        apply lookup_delete_eq.
    + rewrite He. simpl. apply lookup_delete_eq.
    + rewrite He. simpl. rewrite andb_false_r. simpl. apply lookup_delete_eq.
Qed.

Lemma validateFieldFn_with_rule_witness :
  Sample.name_schema !! "name"%string
  = Some (Validation.mkRule true (Some 2) None None None None None)
  /\ FormValidation.errors
       (fst (FormValidation.validateFieldFn sample_validateField Sample.name_schema
               "name" Sample.empty_name_form)) !! "name"%string
     = Some "validation.name"%string.
Proof.
  assert (Hs : Sample.name_schema !! "name"%string
               = Some (Validation.mkRule true (Some 2) None None None None None))
    by reflexivity.
  split; [exact Hs |].
  destruct (validateFieldFn_with_rule sample_validateField Sample.name_schema
              "name" _ Sample.empty_name_form Hs) as (_ & _ & _ & _ & Hadd & _).
  apply Hadd; [reflexivity | reflexivity | discriminate].
Defined.

(** X2.  [handleBlur(f)] marks [f] touched and leaves the other touched
    flags and the data alone.  It changes no error entry but that of [f],
    and none at all when validate-on-blur is off or [f] has no rule. *)
Theorem handleBlur_touches_field {Rule : Type}
    (validateField : Js.value -> Rule -> string -> FormValidation.FieldValidationResult)
    (schema : gmap string Rule) (validateOnBlur : bool) (field : string)
    (st : FormValidation.FormState) :
  let st' := FormValidation.handleBlur validateField schema validateOnBlur field st in
  FormValidation.touched st' !! field = Some true
  /\ (forall g : string, g <> field ->
        FormValidation.touched st' !! g = FormValidation.touched st !! g)
  /\ FormValidation.data st' = FormValidation.data st
  /\ (forall g : string, g <> field ->
        FormValidation.errors st' !! g = FormValidation.errors st !! g)
  /\ (validateOnBlur = false \/ schema !! field = None ->
      FormValidation.errors st' = FormValidation.errors st).
Proof.
  intros st'. unfold st', FormValidation.handleBlur, FormValidation.validateFieldFn.
  destruct validateOnBlur.
  - destruct (schema !! field) as [rule|] eqn:Hs.
    + repeat case_match; simpl;
        (split; [apply lookup_insert_eq |]);
        (split; [intros g Hg; by apply lookup_insert_ne |]);
        (split; [done |]);
        (split; [intros g Hg;
                 by rewrite ?lookup_insert_ne, ?lookup_delete_ne by done |]);
        by intros [? | ?].
    + simpl. split; [apply lookup_insert_eq |].
      split; [intros g Hg; by apply lookup_insert_ne |]. done.
  - simpl. split; [apply lookup_insert_eq |].
    split; [intros g Hg; by apply lookup_insert_ne |]. done.
Qed.

Lemma handleBlur_touches_field_witness :
  "headquarter"%string <> "name"%string
  /\ FormValidation.touched
       (FormValidation.handleBlur sample_validateField Sample.name_schema true
          "name" Sample.empty_name_form) !! "headquarter"%string = None.
Proof.
  assert (Hne : "headquarter"%string <> "name"%string) by discriminate.
  split; [exact Hne |].
  destruct (handleBlur_touches_field sample_validateField Sample.name_schema true
              "name" Sample.empty_name_form) as (_ & Hother & _).
  rewrite (Hother _ Hne). reflexivity.
Defined.

(** X3.  [handleSubmit] calls [onSubmit] unless validate-on-submit is on
    and the whole-schema validation fails; when it calls it, it passes the
    current data and leaves the touched flags alone.  The data is never
    changed and [isValidating] ends false.  With validate-on-submit off the
    error map is left as it was, so invalid data is submitted; with it on
    the error map becomes that of the validation. *)
Theorem handleSubmit_calls_onSubmit {Rule : Type}
    (validateForm : gmap string Js.value -> gmap string Rule ->
                    FormValidation.FormValidationResult)
    (schema : gmap string Rule) (validateOnSubmit : bool)
    (st : FormValidation.FormState) :
  let result := validateForm (FormValidation.data st) schema in
  let out := FormValidation.handleSubmit validateForm schema validateOnSubmit st in
  (snd out = None <->
   validateOnSubmit = true /\ FormValidation.vf_isValid result = false)
  /\ (snd out <> None ->
      snd out = Some (FormValidation.data st)
      /\ FormValidation.touched (fst out) = FormValidation.touched st)
  /\ FormValidation.data (fst out) = FormValidation.data st
  /\ FormValidation.isValidating (fst out) = false
  /\ (validateOnSubmit = false ->
      FormValidation.errors (fst out) = FormValidation.errors st)
  /\ (validateOnSubmit = true ->
      FormValidation.errors (fst out) = FormValidation.vf_errors result).
Proof.
  intros result out. unfold out, FormValidation.handleSubmit,
    FormValidation.validateFormFn. fold result.
  destruct validateOnSubmit; [destruct (FormValidation.vf_isValid result) |];
    simpl; repeat split; try done; try (by intros [? ?]); try (by intros []).
Qed.

Lemma handleSubmit_calls_onSubmit_witness :
  snd (FormValidation.handleSubmit sample_validateForm Sample.name_schema false
         Sample.empty_name_form) <> None
  /\ snd (FormValidation.handleSubmit sample_validateForm Sample.name_schema false
            Sample.empty_name_form)
     = Some (FormValidation.data Sample.empty_name_form).
Proof.
  assert (Hcalled : snd (FormValidation.handleSubmit sample_validateForm
                           Sample.name_schema false Sample.empty_name_form) <> None)
    by discriminate.
  split; [exact Hcalled |].
  destruct (handleSubmit_calls_onSubmit sample_validateForm Sample.name_schema false
              Sample.empty_name_form) as (_ & Hcall & _).
  exact (proj1 (Hcall Hcalled)).
Defined.

(** X4.  [clearError(f)] undoes [setError(f, e)]: the error map is the old
    one without [f], and the whole state is the old one when [f] had no
    entry.  After [setError] the form is not valid, whatever the message;
    after [clearErrors] it is; and [isValid] holds exactly when the error
    map is empty. *)
Theorem setError_clearError_roundtrip (field e : string)
    (st : FormValidation.FormState) :
  FormValidation.errors (FormValidation.clearError field
                           (FormValidation.setError field e st))
  = delete field (FormValidation.errors st)
  /\ (FormValidation.errors st !! field = None ->
      FormValidation.clearError field (FormValidation.setError field e st) = st)
  /\ FormValidation.isValid (FormValidation.setError field e st) = false
  /\ FormValidation.isValid (FormValidation.clearErrors st) = true
  /\ (FormValidation.isValid st = true <-> FormValidation.errors st = ∅).
Proof.
  split; [| split; [| split; [| split]]].
  - simpl. apply delete_insert_eq.
  - intros Hnone. destruct st as [d er t v]. simpl in *.
    unfold FormValidation.clearError, FormValidation.setError,
      FormValidation.with_errors. simpl.
    by rewrite delete_insert_eq, delete_id.
  - apply FormFacts.isValid_false. simpl. apply insert_non_empty.
  - unfold FormValidation.isValid. simpl. by rewrite map_size_empty.
  - unfold FormValidation.isValid. rewrite Nat.eqb_eq. apply map_size_empty_iff.
Qed.

Lemma setError_clearError_roundtrip_witness :
  FormValidation.errors Sample.empty_name_form !! "name"%string = None
  /\ FormValidation.clearError "name"
       (FormValidation.setError "name" "taken" Sample.empty_name_form)
     = Sample.empty_name_form.
Proof.
  assert (Hnone : FormValidation.errors Sample.empty_name_form !! "name"%string = None)
    by reflexivity.
  split; [exact Hnone |].
  exact (proj1 (proj2 (setError_clearError_roundtrip "name" "taken"
                         Sample.empty_name_form)) Hnone).
Defined.

(** X5.  Writes to a field compose: after two [updateField] calls on the
    same field the data is that of the second call alone (the last write
    wins), and so is the error map unless the field's entry held the empty
    message; writes to two different fields give the same data in either
    order; the touched flags are never changed. *)
Theorem updateField_last_write_wins {Rule : Type}
    (validateField : Js.value -> Rule -> string -> FormValidation.FieldValidationResult)
    (schema : gmap string Rule) (validateOnChange : bool)
    (field other : string) (v1 v2 : Js.value) (st : FormValidation.FormState) :
  let update := FormValidation.updateField validateField schema validateOnChange in
  FormValidation.data (update field v2 (update field v1 st))
  = FormValidation.data (update field v2 st)
  /\ (FormValidation.errors st !! field <> Some ""%string ->
      FormValidation.errors (update field v2 (update field v1 st))
      = FormValidation.errors (update field v2 st))
  /\ (other <> field ->
      FormValidation.data (update field v2 (update other v1 st))
      = FormValidation.data (update other v1 (update field v2 st)))
  /\ FormValidation.touched (update field v2 st) = FormValidation.touched st.
Proof.
  intros update.
  assert (Herr : forall f v s,
    FormValidation.errors (update f v s) =
    if validateOnChange then
      match schema !! f with
      | Some rule =>
          match FormValidation.fr_error (validateField v rule f) with
          | Some e =>
              if negb (FormValidation.fr_isValid (validateField v rule f))
                 && Js.truthy_str (Some e)
              then <[f := e]> (ErrorMap.cleared f (FormValidation.errors s))
              else ErrorMap.cleared f (FormValidation.errors s)
          | None => ErrorMap.cleared f (FormValidation.errors s)
          end
      | None => ErrorMap.cleared f (FormValidation.errors s)
      end
    else ErrorMap.cleared f (FormValidation.errors s)).
  { intros f v s. unfold update. destruct validateOnChange.
    - destruct (schema !! f) as [rule|] eqn:Hs.
      + by apply FormFacts.updateField_rule.
      + by apply FormFacts.updateField_no_rule.
    - apply FormFacts.updateField_off. }
  split; [| split; [| split]].
  - unfold update. rewrite !FormFacts.updateField_data. apply insert_insert_eq.
  - intros Hne.
    assert (Hc : ErrorMap.cleared field (FormValidation.errors (update field v1 st))
                 = ErrorMap.cleared field (FormValidation.errors st)).
    { rewrite (Herr field v1 st).
      assert (Hins : forall e : string, e <> ""%string ->
                ErrorMap.cleared field
                  (<[field := e]> (ErrorMap.cleared field (FormValidation.errors st)))
                = ErrorMap.cleared field (FormValidation.errors st)).
      { intros e He. rewrite HookFacts.delete_cleared
          by (rewrite lookup_insert_eq; congruence).
        rewrite delete_insert_eq, delete_id; [done |].
        by apply FormFacts.cleared_lookup_eq. }
      repeat case_match; rewrite ?HookFacts.cleared_idem; try done.
      apply Hins. intros ->.
      match goal with H : _ && _ = true |- _ =>
        apply andb_true_iff in H as [_ H]; simpl in H; discriminate end. }
    rewrite (Herr field v2 (update field v1 st)), (Herr field v2 st).
    by rewrite Hc.
  - intros Hne. unfold update. rewrite !FormFacts.updateField_data.
    by apply insert_insert_ne.
  - unfold update, FormValidation.updateField. by repeat case_match.
Qed.

Lemma updateField_last_write_wins_witness :
  FormValidation.errors Sample.empty_name_form !! "name"%string <> Some ""%string
  /\ "headquarter"%string <> "name"%string
  /\ FormValidation.errors
       (FormValidation.updateField sample_validateField Sample.name_schema true
          "name" (Js.VStr "Alpha")
          (FormValidation.updateField sample_validateField Sample.name_schema true
             "name" (Js.VStr "A") Sample.empty_name_form))
     = FormValidation.errors
         (FormValidation.updateField sample_validateField Sample.name_schema true
            "name" (Js.VStr "Alpha") Sample.empty_name_form).
Proof.
  assert (H1 : FormValidation.errors Sample.empty_name_form !! "name"%string
               <> Some ""%string) by discriminate.
  assert (H2 : "headquarter"%string <> "name"%string) by discriminate.
  split; [exact H1 |]. split; [exact H2 |].
  exact (proj1 (proj2 (updateField_last_write_wins sample_validateField
                         Sample.name_schema true "name" "headquarter"
                         (Js.VStr "A") (Js.VStr "Alpha") Sample.empty_name_form)) H1).
Defined.

(** X6.  [handleChange(f)] writes the entry of [f] in the data and no
    other, and leaves the touched flags alone.  What it stores depends on
    the input's type: the [checked] flag for a checkbox whatever its value,
    [Number(value)] for a non-empty number input, and the text as typed,
    the empty string included, for any other type. *)
Theorem handleChange_writes_one_field {Rule : Type}
    (validateField : Js.value -> Rule -> string -> FormValidation.FieldValidationResult)
    (Number : string -> Js.value)
    (schema : gmap string Rule) (validateOnChange : bool)
    (field : string) (target : FormValidation.ChangeTarget)
    (st : FormValidation.FormState) :
  let st' := FormValidation.handleChange validateField Number schema
               validateOnChange field target st in
  (forall g : string, g <> field ->
     FormValidation.data st' !! g = FormValidation.data st !! g)
  /\ FormValidation.touched st' = FormValidation.touched st
  /\ (FormValidation.type target = "checkbox"%string ->
      FormValidation.data st' !! field
      = Some (Js.VBool (FormValidation.checked target)))
  /\ (FormValidation.type target = "number"%string ->
      FormValidation.value target <> ""%string ->
      FormValidation.data st' !! field
      = Some (Number (FormValidation.value target)))
  /\ (FormValidation.type target <> "checkbox"%string ->
      FormValidation.type target <> "number"%string ->
      FormValidation.data st' !! field
      = Some (Js.VStr (FormValidation.value target))).
Proof.
  intros st'. unfold st', FormValidation.handleChange.
  split; [| split; [| split; [| split]]].
  - intros g Hg. rewrite FormFacts.updateField_data. by apply lookup_insert_ne.
  - unfold FormValidation.updateField. by repeat case_match.
  - intros ->. simpl. rewrite FormFacts.updateField_data. apply lookup_insert_eq.
  - intros -> Hv. simpl. rewrite FormFacts.updateField_data, lookup_insert_eq.
    by destruct (String.eqb_spec (FormValidation.value target) "").
  - intros Hc Hn. rewrite FormFacts.updateField_data, lookup_insert_eq.
    destruct (String.eqb_spec (FormValidation.type target) "checkbox"); [done |].
    by destruct (String.eqb_spec (FormValidation.type target) "number").
Qed.

Lemma handleChange_writes_one_field_witness :
  let target := FormValidation.mkChangeTarget "London" "text" false in
  FormValidation.type target <> "checkbox"%string
  /\ FormValidation.type target <> "number"%string
  /\ "name"%string <> "headquarter"%string
  /\ FormValidation.data
       (FormValidation.handleChange sample_validateField Sample.Number
          (Sample.BROKER_FORM_SCHEMA 2025) false "headquarter" target
          Sample.broker_form) !! "headquarter"%string = Some (Js.VStr "London")
  /\ FormValidation.data
       (FormValidation.handleChange sample_validateField Sample.Number
          (Sample.BROKER_FORM_SCHEMA 2025) false "headquarter" target
          Sample.broker_form) !! "name"%string
     = FormValidation.data Sample.broker_form !! "name"%string.
Proof.
  intros target.
  assert (H1 : FormValidation.type target <> "checkbox"%string) by discriminate.
  assert (H2 : FormValidation.type target <> "number"%string) by discriminate.
  assert (H3 : "name"%string <> "headquarter"%string) by discriminate.
  split; [exact H1 |]. split; [exact H2 |]. split; [exact H3 |].
  destruct (handleChange_writes_one_field sample_validateField Sample.Number
              (Sample.BROKER_FORM_SCHEMA 2025) false "headquarter" target
              Sample.broker_form) as (Hother & _ & _ & _ & Htext).
  split; [exact (Htext H1 H2) | exact (Hother _ H3)].
Defined.

(** X7.  The broker form's year handler never adds an error, whatever is
    typed (the form runs the hook with validate-on-change off): the error
    map after it is contained in the one before, and only the
    established_in entries of data and errors can differ.  For a non-empty
    text it stores [parseInt] of the text, a number or NaN. *)
Theorem handleEstablishedYearChange_adds_no_error {Rule : Type}
    (validateField : Js.value -> Rule -> string -> FormValidation.FieldValidationResult)
    (schema : gmap string Rule) (value : string) (st : FormValidation.FormState) :
  let st' := BrokerForm.handleEstablishedYearChange validateField schema value st in
  FormValidation.errors st' ⊆ FormValidation.errors st
  /\ (forall g : string, g <> "established_in"%string ->
        FormValidation.errors st' !! g = FormValidation.errors st !! g
        /\ FormValidation.data st' !! g = FormValidation.data st !! g)
  /\ (value <> ""%string ->
      FormValidation.data st' !! "established_in"%string
      = Some (match Js.parseInt value with
              | Some n => Js.VNum n
              | None => Js.VNaN
              end)).
Proof.
  intros st'. unfold st', BrokerForm.handleEstablishedYearChange,
    BrokerForm.updateField.
  split; [| split].
  - rewrite (proj1 (FormFacts.updateField_off validateField schema _ _ st)).
    apply HookFacts.cleared_subseteq.
  - intros g Hg. split.
    + rewrite (proj1 (FormFacts.updateField_off validateField schema _ _ st)).
      by apply FormFacts.cleared_lookup_ne.
    + rewrite FormFacts.updateField_data. by apply lookup_insert_ne.
  - intros Hv. rewrite FormFacts.updateField_data, lookup_insert_eq.
    simpl. by destruct (String.eqb_spec value "").
Qed.

Lemma handleEstablishedYearChange_adds_no_error_witness :
  "1500"%string <> ""%string
  /\ FormValidation.data
       (BrokerForm.handleEstablishedYearChange sample_validateField
          (Sample.BROKER_FORM_SCHEMA 2025) "1500" Sample.broker_form)
       !! "established_in"%string = Some (Js.VNum 1500)
  /\ FormValidation.errors
       (BrokerForm.handleEstablishedYearChange sample_validateField
          (Sample.BROKER_FORM_SCHEMA 2025) "1500" Sample.broker_form)
     ⊆ FormValidation.errors Sample.broker_form.
Proof.
  assert (Hv : "1500"%string <> ""%string) by discriminate.
  split; [exact Hv |].
  destruct (handleEstablishedYearChange_adds_no_error sample_validateField
              (Sample.BROKER_FORM_SCHEMA 2025) "1500" Sample.broker_form)
    as (Hsub & _ & Hnum).
  split; [exact (Hnum Hv) | exact Hsub].
Defined.

(** ** The pages *)

Module TrimFacts.
Import Js.

(** A string shows something when one of its characters is not white
    space. *)
Lemma truthy_VStr (s : string) : truthy (VStr s) = negb (is_empty_string s).
Proof. by destruct s. Qed.

Lemma trimStart_visible (s : string) :
  is_empty_string (trimStart s) = false <->
  exists c, In c (list_ascii_of_string s) /\ is_space c = false.
Proof.
  induction s as [|a s IH]; simpl.
  - split; [done | by intros (c & [] & _)].
  - destruct (is_space a) eqn:Ha.
    + rewrite IH. split.
      * intros (c & Hc & Hs). exists c. by split; [right |].
      * intros (c & [<- | Hc] & Hs); [congruence | by exists c].
    + simpl. split; [intros _; exists a; by split; [left |] | done].
Qed.

Lemma trimStart_keeps_visible (s : string) (c : ascii) :
  In c (list_ascii_of_string s) -> is_space c = false ->
  In c (list_ascii_of_string (trimStart s)).
Proof.
  induction s as [|a s IH]; simpl; [done |].
  intros [<- | Hc] Hs.
  - rewrite Hs. by left.
  - destruct (is_space a); [by apply IH | by right].
Qed.

Lemma trimStart_chars (s : string) (c : ascii) :
  In c (list_ascii_of_string (trimStart s)) -> In c (list_ascii_of_string s).
Proof.
  induction s as [|a s IH]; simpl; [done |].
  destruct (is_space a); [intros Hc; right; by apply IH | done].
Qed.

Lemma trimEnd_visible (s : string) :
  is_empty_string (trimEnd s) = false <->
  exists c, In c (list_ascii_of_string s) /\ is_space c = false.
Proof.
  induction s as [|a s IH]; simpl.
  - split; [done | by intros (c & [] & _)].
  - destruct (is_space a) eqn:Ha; simpl.
    + destruct (is_empty_string (trimEnd s)) eqn:He; simpl.
      * split; [done |].
        intros (c & [<- | Hc] & Hs); [congruence |].
        apply IH. by exists c.
      * split; [intros _ | done].
        destruct (proj1 IH eq_refl) as (c & Hc & Hs). exists c. by split; [right |].
    + split; [intros _; exists a; by split; [left |] | done].
Qed.

(** [s.trim()] is truthy exactly when [s] has a character that is not
    white space. *)
Lemma trim_truthy (s : string) :
  truthy (VStr (trim s)) = true <->
  exists c, In c (list_ascii_of_string s) /\ is_space c = false.
Proof.
  rewrite truthy_VStr, negb_true_iff. unfold trim. rewrite trimEnd_visible.
  split; intros (c & Hc & Hs); exists c; (split; [| done]).
  - by apply trimStart_chars.
  - by apply trimStart_keeps_visible.
Qed.

End TrimFacts.

(** X8.  The range a page announces ("showing rows start to end of
    total"), for a page size and page number of at least 1: it starts at 1
    or later, ends at the list length at most, and spans at most one page
    size, exactly one when the page lies fully within the list.  It is a
    proper range (start <= end) exactly when the page starts inside the
    list; for an empty list it ends at 0, before its start. *)
Theorem showingRows_range {Rec : Type} (filterState : Filtering.FilterState)
    (records : list Rec) :
  1 <= Filtering.itemsPerPage filterState ->
  1 <= Filtering.currentPage filterState ->
  let r := Pages.showingRows filterState records in
  let P := Filtering.itemsPerPage filterState in
  let c := Filtering.currentPage filterState in
  Pages.total r = Z.of_nat (List.length records)
  /\ 1 <= Pages.startItem r
  /\ Pages.endItem r <= Pages.total r
  /\ Pages.endItem r - Pages.startItem r + 1 <= P
  /\ (c * P <= Pages.total r -> Pages.endItem r - Pages.startItem r + 1 = P)
  /\ (Pages.startItem r <= Pages.endItem r <-> (c - 1) * P < Pages.total r)
  /\ (records = [] -> Pages.endItem r = 0 /\ Pages.endItem r < Pages.startItem r).
Proof.
  intros HP Hc r P c. unfold r, Pages.showingRows. simpl. fold P c.
  assert (0 <= (c - 1) * P) by nia.
  assert (c * P = (c - 1) * P + P) by ring.
  split; [done |]. split; [lia |]. split; [lia |]. split; [lia |].
  split; [lia |]. split; [lia |].
  intros ->. simpl. lia.
Qed.

Lemma showingRows_range_witness :
  1 <= Filtering.itemsPerPage Sample.second_page
  /\ 1 <= Filtering.currentPage Sample.second_page
  /\ Pages.startItem (Pages.showingRows Sample.second_page Sample.brokers) = 3
  /\ Pages.endItem (Pages.showingRows Sample.second_page Sample.brokers)
     <= Pages.total (Pages.showingRows Sample.second_page Sample.brokers).
Proof.
  assert (H1 : 1 <= Filtering.itemsPerPage Sample.second_page)
    by (vm_compute; discriminate).
  assert (H2 : 1 <= Filtering.currentPage Sample.second_page)
    by (vm_compute; discriminate).
  split; [exact H1 |]. split; [exact H2 |]. split; [reflexivity |].
  exact (proj1 (proj2 (proj2 (showingRows_range Sample.second_page Sample.brokers
                                H1 H2)))).
Defined.

(** X9.  The account-type rows the brokers page builds for the insert:
    each row carries the broker's id and comes from a submitted account
    type whose name has a character that is not white space; its spreads,
    commission and minimum deposit are the submitted values when truthy
    and null otherwise, so never an empty string or [undefined].  Every
    submitted account type with such a name yields a row, and there is no
    row exactly when no submitted name shows anything. *)
Theorem accountTypesToInsert_rows (brokerId : string)
    (accountTypes : list Pages.AccountTypeInput) :
  let rows := Pages.accountTypesToInsert brokerId accountTypes in
  (forall row, In row rows ->
     Pages.row_broker_id row = brokerId
     /\ (exists a, In a accountTypes
           /\ Pages.account_type a = Some (Pages.row_account_type row)
           /\ Pages.row_spreads row = Js.or_null (Pages.spreads a)
           /\ Pages.row_commission row = Js.or_null (Pages.commission a)
           /\ Pages.row_min_deposit row = Js.or_null (Pages.min_deposit a))
     /\ (exists c, In c (list_ascii_of_string (Pages.row_account_type row))
           /\ Js.is_space c = false)
     /\ (Pages.row_spreads row = Js.VNull \/ Js.truthy (Pages.row_spreads row) = true)
     /\ (Pages.row_commission row = Js.VNull
         \/ Js.truthy (Pages.row_commission row) = true)
     /\ (Pages.row_min_deposit row = Js.VNull
         \/ Js.truthy (Pages.row_min_deposit row) = true))
  /\ (forall a s, In a accountTypes -> Pages.account_type a = Some s ->
        (exists c, In c (list_ascii_of_string s) /\ Js.is_space c = false) ->
        exists row, In row rows /\ Pages.row_account_type row = s)
  /\ (List.length rows <= List.length accountTypes)%nat
  /\ (rows = [] <->
      forall a s, In a accountTypes -> Pages.account_type a = Some s ->
        forall c, In c (list_ascii_of_string s) -> Js.is_space c = true).
Proof.
  intros rows.
  assert (Hkeep : forall a, Pages.hasAccountType a = true <->
            exists s, Pages.account_type a = Some s
              /\ exists c, In c (list_ascii_of_string s) /\ Js.is_space c = false).
  { intros a. unfold Pages.hasAccountType.
    destruct (Pages.account_type a) as [s|].
    - rewrite andb_true_iff, TrimFacts.trim_truthy. split.
      + intros [_ Hc]. by exists s.
      + intros (s' & [= <-] & c & Hc & Hs). split; [| by exists c].
        rewrite TrimFacts.truthy_VStr. by destruct s.
    - split; [done | by intros (s & ? & _)]. }
  assert (Hor : forall v, Js.or_null v = Js.VNull \/ Js.truthy (Js.or_null v) = true).
  { intros v. unfold Js.or_null. destruct (Js.truthy v) eqn:E; [by right | by left]. }
  split; [| split; [| split]].
  - intros row Hrow. unfold rows, Pages.accountTypesToInsert in Hrow.
    apply in_map_iff in Hrow as (a & <- & Ha).
    apply filter_In in Ha as [Ha Hk].
    apply Hkeep in Hk as (s & Hs & Hvis). simpl. rewrite Hs. simpl.
    split; [done |]. split; [by exists a |]. split; [done |]. by repeat split.
  - intros a s Ha Hs Hvis.
    eexists. split.
    + unfold rows, Pages.accountTypesToInsert. apply in_map, filter_In.
      split; [exact Ha |]. apply Hkeep. by exists s.
    + simpl. by rewrite Hs.
  - unfold rows, Pages.accountTypesToInsert. rewrite List.length_map.
    apply submseteq_length, sublist_submseteq, FilteringFacts.filter_sublist.
  - split.
    + intros Hnil a s Ha Hs c Hc.
      destruct (Js.is_space c) eqn:E; [done | exfalso].
      assert (Hk : Pages.hasAccountType a = true)
        by (apply Hkeep; exists s; split; [done | by exists c]).
      assert (Hin : In a (List.filter Pages.hasAccountType accountTypes))
        by (by apply filter_In).
      unfold rows, Pages.accountTypesToInsert in Hnil.
      apply map_eq_nil in Hnil. by rewrite Hnil in Hin.
    + intros Hall. unfold rows, Pages.accountTypesToInsert.
      destruct (List.filter Pages.hasAccountType accountTypes) as [|a l] eqn:E;
        [done | exfalso].
      assert (Ha : In a (List.filter Pages.hasAccountType accountTypes))
        by (rewrite E; by left).
      apply filter_In in Ha as [Ha Hk].
      apply Hkeep in Hk as (s & Hs & c & Hc & Hsp).
      specialize (Hall a s Ha Hs c Hc). congruence.
Qed.

Lemma accountTypesToInsert_rows_witness :
  In (Pages.mkAccountTypeRow "b1" "Standard" (Js.VStr "1.2") Js.VNull Js.VNull)
     (Pages.accountTypesToInsert "b1" Fixtures.accountTypes)
  /\ List.length (Pages.accountTypesToInsert "b1" Fixtures.accountTypes) = 1%nat
  /\ exists c, In c (list_ascii_of_string "Standard") /\ Js.is_space c = false.
Proof.
  assert (Hin : In (Pages.mkAccountTypeRow "b1" "Standard" (Js.VStr "1.2")
                      Js.VNull Js.VNull)
                  (Pages.accountTypesToInsert "b1" Fixtures.accountTypes))
    by (vm_compute; by left).
  split; [exact Hin |]. split; [reflexivity |].
  destruct (proj1 (accountTypesToInsert_rows "b1" Fixtures.accountTypes) _ Hin)
    as (_ & _ & Hvis & _).
  exact Hvis.
Defined.

(** X10.  The requests the brokers page sends for the account types of a
    saved broker: none at all when no account type is submitted (existing
    rows are then left in the table); otherwise a delete of the broker's
    rows first, followed by one insert of the rows built from the
    submission, or by nothing when every submitted name is blank.  Every
    request concerns this broker only. *)
Theorem saveAccountTypes_requests (brokerId : string)
    (accountTypes : list Pages.AccountTypeInput) :
  brokerId <> ""%string ->
  let rows := Pages.accountTypesToInsert brokerId accountTypes in
  (accountTypes = [] -> Pages.saveAccountTypes brokerId accountTypes = [])
  /\ (accountTypes <> [] -> rows = [] ->
      Pages.saveAccountTypes brokerId accountTypes
      = [Pages.DeleteAccountTypes brokerId])
  /\ (accountTypes <> [] -> rows <> [] ->
      Pages.saveAccountTypes brokerId accountTypes
      = [Pages.DeleteAccountTypes brokerId; Pages.InsertAccountTypes rows])
  /\ (forall req, In req (Pages.saveAccountTypes brokerId accountTypes) ->
      match req with
      | Pages.DeleteAccountTypes b => b = brokerId
      | Pages.InsertAccountTypes rs =>
          forall row, In row rs -> Pages.row_broker_id row = brokerId
      end).
Proof.
  intros Hid rows.
  assert (Htruthy : Js.truthy (Js.VStr brokerId) = true).
  { rewrite TrimFacts.truthy_VStr. by destruct brokerId. }
  assert (Hsave : Pages.saveAccountTypes brokerId accountTypes =
            match accountTypes with
            | [] => []
            | _ :: _ =>
                Pages.DeleteAccountTypes brokerId
                :: match rows with
                   | [] => []
                   | _ :: _ => [Pages.InsertAccountTypes rows]
                   end
            end).
  { unfold Pages.saveAccountTypes. rewrite Htruthy. fold rows.
    destruct accountTypes; [done |]. simpl. by destruct rows. }
  rewrite Hsave. split; [by intros -> |].
  split; [intros Hne ->; by destruct accountTypes |].
  split; [intros Hne Hrows; destruct accountTypes; [done |]; by destruct rows |].
  intros req Hreq. destruct accountTypes as [|a l]; [done |].
  destruct Hreq as [<- | Hreq]; [done |].
  destruct rows as [|row0 rows0] eqn:E; [done |].
  destruct Hreq as [<- | []].
  intros row Hrow. rewrite <- E in Hrow.
  by apply (proj1 (accountTypesToInsert_rows brokerId (a :: l)) row).
Qed.

Lemma saveAccountTypes_requests_witness :
  "b1"%string <> ""%string
  /\ Fixtures.blankAccountTypes <> []
  /\ Pages.saveAccountTypes "b1" Fixtures.blankAccountTypes
     = [Pages.DeleteAccountTypes "b1"]
  /\ Pages.saveAccountTypes "b1" [] = [].
Proof.
  assert (Hid : "b1"%string <> ""%string) by discriminate.
  assert (Hne : Fixtures.blankAccountTypes <> []) by discriminate.
  split; [exact Hid |]. split; [exact Hne |].
  split.
  - exact (proj1 (proj2 (saveAccountTypes_requests "b1" Fixtures.blankAccountTypes
                           Hid)) Hne eq_refl).
  - exact (proj1 (saveAccountTypes_requests "b1" [] Hid) eq_refl).
Defined.

(** X11.  A delete that is not confirmed for a record, or that fails,
    never changes the filter state on either page.  Without a broker id
    (or a post) the handlers change nothing.  When the remote delete fails
    the brokers page still closes its dialog, while the posts page keeps
    its dialog as it is and only clears [isDeleting]; when it succeeds both
    close the dialog. *)
Theorem delete_handlers_failure_paths {Rec : Type}
    (dialog : Brokers.ConfirmDialog) (confirm : Posts.DeleteConfirm Rec)
    (shown : list Rec) (totalPages : Z) (filterState : Filtering.FilterState) :
  (Js.truthy_str (Brokers.brokerId dialog) = false ->
     forall deleted,
       Brokers.handleConfirmDelete dialog deleted shown totalPages filterState
       = (filterState, dialog))
  /\ (Posts.post confirm = None ->
     forall deleted,
       Posts.confirmDelete confirm deleted shown totalPages filterState
       = (filterState, confirm))
  /\ (Js.truthy_str (Brokers.brokerId dialog) = true ->
     Brokers.handleConfirmDelete dialog false shown totalPages filterState
     = (filterState, Brokers.closedDialog)
     /\ snd (Brokers.handleConfirmDelete dialog true shown totalPages filterState)
        = Brokers.closedDialog)
  /\ (forall p, Posts.post confirm = Some p ->
     Posts.confirmDelete confirm false shown totalPages filterState
     = (filterState, Posts.mkDeleteConfirm (Posts.isOpen confirm) (Some p) false)
     /\ snd (Posts.confirmDelete confirm true shown totalPages filterState)
        = Posts.mkDeleteConfirm false None false).
Proof.
  split; [| split; [| split]].
  - intros Hid deleted. unfold Brokers.handleConfirmDelete. by rewrite Hid.
  - intros Hp deleted. unfold Posts.confirmDelete. by rewrite Hp.
  - intros Hid. unfold Brokers.handleConfirmDelete. by rewrite Hid.
  - intros p Hp. unfold Posts.confirmDelete. by rewrite Hp.
Qed.

Lemma delete_handlers_failure_paths_witness :
  Js.truthy_str (Brokers.brokerId Brokers.closedDialog) = false
  /\ Brokers.handleConfirmDelete Brokers.closedDialog true Sample.brokers 2
       Sample.second_page
     = (Sample.second_page, Brokers.closedDialog).
Proof.
  assert (Hid : Js.truthy_str (Brokers.brokerId Brokers.closedDialog) = false)
    by reflexivity.
  split; [exact Hid |].
  exact (proj1 (delete_handlers_failure_paths Brokers.closedDialog
                  (Posts.mkDeleteConfirm false None false) Sample.brokers 2
                  Sample.second_page) Hid true).
Defined.

Module TabFacts.

Lemma count_by_type {Post : Type} (type : Post -> string) (posts : list Post) :
  let count id :=
    List.length (List.filter (fun post => String.eqb (type post) id) posts) in
  let known post :=
    String.eqb (type post) "news" || String.eqb (type post) "event"
    || String.eqb (type post) "terms_of_use"
    || String.eqb (type post) "privacy_policy" in
  (count "news" + count "event" + count "terms_of_use" + count "privacy_policy")%nat
  = List.length (List.filter known posts).
Proof.
  cbv zeta.
  induction posts as [|p posts IH]; [done |]. simpl.
  destruct (String.eqb_spec (type p) "news") as [E|E];
    [rewrite ?E; simpl; lia |].
  destruct (String.eqb_spec (type p) "event") as [E2|E2];
    [rewrite ?E2; simpl; lia |].
  destruct (String.eqb_spec (type p) "terms_of_use") as [E3|E3];
    [rewrite ?E3; simpl; lia |].
  destruct (String.eqb_spec (type p) "privacy_policy") as [E4|E4];
    [rewrite ?E4; simpl; lia |].
  simpl. lia.
Qed.

End TabFacts.

(** X12.  The tabs of the posts page are, in order, all, news, event,
    terms_of_use and privacy_policy.  The count of the all tab is the
    number of displayed posts; the counts of the four type tabs add up to
    the number of posts whose type is one of the four, so to at most the
    all count, and to exactly the all count when every post has one of the
    four types. *)
Theorem tabsWithCounts_partition {Post : Type} (type : Post -> string)
    (t : string -> string) (displayPosts : list Post) :
  exists n_news n_event n_terms n_privacy : nat,
    List.map (fun tab => (Pages.tab_id tab, Pages.tab_count tab))
      (Pages.tabsWithCounts type t displayPosts)
    = [ ("all"%string, List.length displayPosts); ("news"%string, n_news);
        ("event"%string, n_event); ("terms_of_use"%string, n_terms);
        ("privacy_policy"%string, n_privacy) ]
    /\ (n_news + n_event + n_terms + n_privacy <= List.length displayPosts)%nat
    /\ ((forall post, In post displayPosts ->
           In (type post) ["news"; "event"; "terms_of_use"; "privacy_policy"]%string) ->
        (n_news + n_event + n_terms + n_privacy)%nat = List.length displayPosts).
Proof.
  pose proof (TabFacts.count_by_type type displayPosts) as Hsum. cbv zeta in Hsum.
  eexists (List.length (List.filter (fun post => String.eqb (type post) "news") _)),
          (List.length (List.filter (fun post => String.eqb (type post) "event") _)),
          (List.length (List.filter (fun post => String.eqb (type post) "terms_of_use") _)),
          (List.length (List.filter (fun post => String.eqb (type post) "privacy_policy") _)).
  split; [reflexivity |].
  rewrite Hsum. split.
  - apply submseteq_length, sublist_submseteq, FilteringFacts.filter_sublist.
  - intros Hall. f_equal. apply forallb_filter_id, forallb_forall.
    intros post Hpost. specialize (Hall post Hpost). simpl in Hall.
    destruct Hall as [<- | [<- | [<- | [<- | []]]]]; reflexivity.
Qed.

Lemma tabsWithCounts_partition_witness :
  (forall post, In post Fixtures.postTypes ->
     In (id post) ["news"; "event"; "terms_of_use"; "privacy_policy"]%string)
  /\ List.map Pages.tab_count (Pages.tabsWithCounts id Sample.t Fixtures.postTypes)
     = [4; 2; 1; 0; 1]%nat
  /\ exists n_news n_event n_terms n_privacy : nat,
       List.map (fun tab => (Pages.tab_id tab, Pages.tab_count tab))
         (Pages.tabsWithCounts id Sample.t Fixtures.postTypes)
       = [ ("all"%string, 4%nat); ("news"%string, n_news);
           ("event"%string, n_event); ("terms_of_use"%string, n_terms);
           ("privacy_policy"%string, n_privacy) ]
       /\ (n_news + n_event + n_terms + n_privacy)%nat = 4%nat.
Proof.
  assert (Hall : forall post, In post Fixtures.postTypes ->
            In (id post) ["news"; "event"; "terms_of_use"; "privacy_policy"]%string).
  { intros post Hpost. simpl in Hpost.
    destruct Hpost as [<- | [<- | [<- | [<- | []]]]]; simpl; tauto. }
  split; [exact Hall |]. split; [reflexivity |].
  destruct (tabsWithCounts_partition id Sample.t Fixtures.postTypes)
    as (a & b & c & d & Htabs & _ & Hsum).
  exists a, b, c, d. split; [exact Htabs | exact (Hsum Hall)].
Defined.

Module PostsPageFacts.
Import PostsPage.

Lemma step_logged_out {Post User : Type} (ev : Event Post) (st : PageState Post) :
  closed st ->
  closed (fst (step (None : option User) ev st))
  /\ filterState (fst (step (None : option User) ev st)) = filterState st
  /\ Forall (fun e => is_delete e = false) (snd (step (None : option User) ev st)).
Proof.
  intros (Hm & He & Hp). unfold closed.
  destruct ev; simpl; try by repeat constructor.
  - unfold confirmDelete, Posts.confirmDelete. rewrite Hp. simpl.
    by repeat constructor.
  - unfold viewModal_onEdit. destruct (viewingPost st); simpl; by repeat constructor.
Qed.

End PostsPageFacts.

(** X13.  While nobody is logged in, the posts page that has no form and
    no delete confirmation open stays that way under every sequence of
    user events: the form modal never opens, no post is ever put up for
    deletion, [deletePost] is never called, and the filter state is never
    changed. *)
Theorem logged_out_never_deletes {Post User : Type}
    (evs : list (PostsPage.Event Post)) (st : PostsPage.PageState Post) :
  PostsPage.closed st ->
  let out := PostsPage.run (None : option User) evs st in
  PostsPage.closed (fst out)
  /\ PostsPage.filterState (fst out) = PostsPage.filterState st
  /\ Forall (fun e => PostsPage.is_delete e = false) (snd out).
Proof.
  revert st. induction evs as [|ev evs IH]; intros st Hst; simpl.
  - split; [exact Hst |]. split; [reflexivity | apply Forall_nil; exact I].
  - destruct (PostsPageFacts.step_logged_out (User := User) ev st Hst)
      as (Hc & Hf & Ho).
    destruct (PostsPage.step None ev st) as [st1 out1] eqn:E1. simpl in *.
    specialize (IH st1 Hc).
    destruct (PostsPage.run None evs st1) as [st2 out2] eqn:E2. simpl in *.
    destruct IH as (Hc2 & Hf2 & Ho2).
    split; [done |]. split; [congruence |]. by apply Forall_app.
Qed.

Lemma logged_out_never_deletes_witness :
  PostsPage.closed (PostsPage.initial (Post := Sample.Broker) Sample.initial)
  /\ snd (PostsPage.run (None : option string)
            [ PostsPage.Delete (Sample.broker "b1" "Alpha FX" "London" 1999);
              PostsPage.ConfirmDelete true [] 1; PostsPage.CreateClick ]
            (PostsPage.initial Sample.initial))
     = [ PostsPage.Alert "actions.delete"; PostsPage.Alert "actions.create" ]
  /\ Forall (fun e => PostsPage.is_delete e = false)
       (snd (PostsPage.run (None : option string)
               [ PostsPage.Delete (Sample.broker "b1" "Alpha FX" "London" 1999);
                 PostsPage.ConfirmDelete true [] 1; PostsPage.CreateClick ]
               (PostsPage.initial Sample.initial))).
Proof.
  assert (Hc : PostsPage.closed
                 (PostsPage.initial (Post := Sample.Broker) Sample.initial))
    by (by repeat split).
  split; [exact Hc |]. split; [reflexivity |].
  exact (proj2 (proj2 (logged_out_never_deletes (User := string) _ _ Hc))).
Defined.

(** ** The modals and the constants *)

(** X14.  The translation the post view shows: none exactly when the post
    has no translation; otherwise one of the post's translations, whose
    language is among the available ones; it is in the selected language
    whenever a translation in that language exists (the first such), and
    it is the first translation when none does. *)
Theorem currentTranslation_choice {Translation : Type}
    (language_code : Translation -> string)
    (translations : list Translation) (selectedLanguage : string) :
  (PostViewModal.currentTranslation language_code translations selectedLanguage = None
   <-> translations = [])
  /\ forall tr : Translation,
       PostViewModal.currentTranslation language_code translations selectedLanguage
       = Some tr ->
       In tr translations
       /\ In (language_code tr)
            (PostViewModal.availableLanguages language_code translations)
       /\ (In selectedLanguage
             (PostViewModal.availableLanguages language_code translations) ->
           language_code tr = selectedLanguage
           /\ List.find (fun t => String.eqb (language_code t) selectedLanguage)
                translations = Some tr)
       /\ (~ In selectedLanguage
               (PostViewModal.availableLanguages language_code translations) ->
           List.head translations = Some tr).
Proof.
  destruct translations as [|first rest] eqn:Et; [by split |].
  rewrite <- Et.
  assert (Hcur : PostViewModal.currentTranslation language_code translations
                   selectedLanguage
                 = Some (default first
                           (List.find
                              (fun t => String.eqb (language_code t) selectedLanguage)
                              translations)))
    by (by rewrite Et).
  assert (Hfirst : In first translations) by (rewrite Et; by left).
  assert (Hhead : List.head translations = Some first) by (by rewrite Et).
  rewrite Hcur. split; [by rewrite Et |].
  clear Et Hcur. unfold PostViewModal.availableLanguages.
  intros tr [= <-].
  destruct (List.find (fun t => String.eqb (language_code t) selectedLanguage)
              translations) as [found|] eqn:E; simpl.
  - apply find_some in E as E'. destruct E' as [Hin Heq].
    apply String.eqb_eq in Heq.
    split; [exact Hin |]. split; [by apply in_map |].
    split; [done |].
    intros Hno. exfalso. apply Hno. rewrite <- Heq. by apply in_map.
  - split; [exact Hfirst |]. split; [by apply in_map |].
    split; [| done].
    intros Hsel. exfalso. apply in_map_iff in Hsel as (x & Hx & Hin).
    pose proof (find_none _ _ E x Hin) as Hn. simpl in Hn.
    rewrite Hx, String.eqb_refl in Hn. discriminate.
Qed.

Lemma currentTranslation_choice_witness :
  PostViewModal.currentTranslation fst Fixtures.translations "vi"
  = Some ("vi"%string, "Xin chao"%string)
  /\ In "vi"%string (PostViewModal.availableLanguages fst Fixtures.translations)
  /\ fst ("vi"%string, "Xin chao"%string) = "vi"%string.
Proof.
  assert (Hc : PostViewModal.currentTranslation fst Fixtures.translations "vi"
               = Some ("vi"%string, "Xin chao"%string)) by reflexivity.
  assert (Hin : In "vi"%string
                  (PostViewModal.availableLanguages fst Fixtures.translations))
    by (simpl; tauto).
  split; [exact Hc |]. split; [exact Hin |].
  destruct (proj2 (currentTranslation_choice fst Fixtures.translations "vi") _ Hc)
    as (_ & _ & Hsel & _).
  exact (proj1 (Hsel Hin)).
Defined.

Module ImageUploadFacts.
Import ImageUploadModal.

Lemma step_keeps_image (createImageRecord : bool) (ev : Event) (st : ModalState) :
  image_selected st ->
  image_selected (fst (step createImageRecord ev st))
  /\ forall e file, In e (snd (step createImageRecord ev st)) ->
       uploaded e = Some file ->
       Js.startsWith "image/" (file_type file) = true.
Proof.
  intros Hst.
  assert (Hsel : forall (file : File) (s : ModalState), image_selected s ->
            image_selected (fst (handleFileSelect file s))
            /\ forall e f, In e (snd (handleFileSelect file s)) ->
                 uploaded e = Some f -> Js.startsWith "image/" (file_type f) = true).
  { intros file s Hs. unfold handleFileSelect.
    destruct (Js.startsWith "image/" (file_type file)) eqn:E; simpl.
    - split; [by intros f [= <-] |]. by intros e f [<- | []].
    - split; [done |]. by intros e f [<- | []]. }
  destruct ev; simpl.
  - split; [| done]. unfold handleDrag. by repeat case_match.
  - unfold handleDrop. destruct files as [|file files]; [by split |].
    by apply Hsel.
  - unfold handleInputChange. destruct files as [|file files]; [by split |].
    by apply Hsel.
  - by split.
  - by split.
  - by split.
  - unfold handleUpload. destruct (selectedFile st) as [file|] eqn:E.
    + destruct result as [r|]; simpl.
      * destruct (createImageRecord && negb recorded) eqn:Er; simpl.
        -- split; [done |].
           intros e f [<- | [<- | []]]; [intros [= <-]; by apply Hst | done].
        -- split; [done |].
           intros e f [<- | He]; [intros [= <-]; by apply Hst |].
           destruct createImageRecord; simpl in He;
             repeat (destruct He as [<- | He]; [done |]); by destruct He.
      * split; [done |]. intros e f [<- | []] [= <-]. by apply Hst.
    + simpl. split; [done |]. by intros e f [<- | []].
  - unfold handleClose. destruct isUploading; simpl.
    + split; [done |]. by intros e f [<- | []].
    + split; [done |]. by intros e f [<- | []].
Qed.

End ImageUploadFacts.

(** X15.  In the image upload modal, the selected file always has a MIME
    type starting with image/, so every file handed to [uploadFile], under
    any sequence of user events from the initial state, is of such a type.
    A dropped or chosen file of another type is refused: the only effect is
    the fileType error toast and the selection stays what it was (choosing
    changes nothing at all, dropping only ends the drag highlight).  A file
    of an image type becomes the selection and is read for the preview. *)
Theorem upload_takes_only_images (createImageRecord : bool)
    (evs : list ImageUploadModal.Event) (st : ImageUploadModal.ModalState) :
  ImageUploadModal.image_selected st ->
  let out := ImageUploadModal.run createImageRecord evs st in
  (ImageUploadModal.image_selected (fst out)
   /\ forall e file, In e (snd out) ->
        ImageUploadModal.uploaded e = Some file ->
        Js.startsWith "image/" (ImageUploadModal.file_type file) = true)
  /\ (forall (file : ImageUploadModal.File) (rest : list ImageUploadModal.File)
        (s : ImageUploadModal.ModalState),
      Js.startsWith "image/" (ImageUploadModal.file_type file) = false ->
      ImageUploadModal.handleFileSelect file s
      = (s, [ImageUploadModal.ToastError "fileType"])
      /\ ImageUploadModal.step createImageRecord
           (ImageUploadModal.InputChange (file :: rest)) s
         = (s, [ImageUploadModal.ToastError "fileType"])
      /\ ImageUploadModal.step createImageRecord
           (ImageUploadModal.Drop (file :: rest)) s
         = (ImageUploadModal.mkModalState false (ImageUploadModal.preview s)
              (ImageUploadModal.altText s) (ImageUploadModal.selectedFile s),
            [ImageUploadModal.ToastError "fileType"]))
  /\ (forall (file : ImageUploadModal.File) (rest : list ImageUploadModal.File)
        (s : ImageUploadModal.ModalState),
      Js.startsWith "image/" (ImageUploadModal.file_type file) = true ->
      ImageUploadModal.handleFileSelect file s
      = (ImageUploadModal.mkModalState (ImageUploadModal.dragActive s)
           (ImageUploadModal.preview s) (ImageUploadModal.altText s) (Some file),
         [ImageUploadModal.ReadAsDataURL file])
      /\ ImageUploadModal.selectedFile
           (fst (ImageUploadModal.step createImageRecord
                   (ImageUploadModal.InputChange (file :: rest)) s)) = Some file
      /\ ImageUploadModal.selectedFile
           (fst (ImageUploadModal.step createImageRecord
                   (ImageUploadModal.Drop (file :: rest)) s)) = Some file).
Proof.
  intros Hinit out. split; [| split].
  - unfold out. clear out. revert st Hinit.
    induction evs as [|ev evs IH]; intros st Hst; simpl.
    + by split.
    + destruct (ImageUploadFacts.step_keeps_image createImageRecord ev st Hst)
        as (Hs1 & Ho1).
      destruct (ImageUploadModal.step createImageRecord ev st) as [st1 out1].
      simpl in *. specialize (IH st1 Hs1).
      destruct (ImageUploadModal.run createImageRecord evs st1) as [st2 out2].
      simpl in *. destruct IH as (Hs2 & Ho2).
      split; [done |]. intros e file He.
      apply in_app_iff in He as [He | He]; eauto.
  - intros file rest s Hno.
    assert (Hsel : forall s0, ImageUploadModal.handleFileSelect file s0
                     = (s0, [ImageUploadModal.ToastError "fileType"])).
    { intros s0. unfold ImageUploadModal.handleFileSelect. by rewrite Hno. }
    split; [apply Hsel |]. split; [apply Hsel |].
    simpl. unfold ImageUploadModal.handleDrop. apply Hsel.
  - intros file rest s Hyes.
    assert (Hsel : forall s0, ImageUploadModal.handleFileSelect file s0
                     = (ImageUploadModal.mkModalState (ImageUploadModal.dragActive s0)
                          (ImageUploadModal.preview s0) (ImageUploadModal.altText s0)
                          (Some file),
                        [ImageUploadModal.ReadAsDataURL file])).
    { intros s0. unfold ImageUploadModal.handleFileSelect. by rewrite Hyes. }
    split; [apply Hsel |]. split.
    + simpl. unfold ImageUploadModal.handleInputChange. by rewrite Hsel.
    + simpl. unfold ImageUploadModal.handleDrop. by rewrite Hsel.
Qed.

Lemma upload_takes_only_images_witness :
  ImageUploadModal.image_selected ImageUploadModal.initial
  /\ snd (ImageUploadModal.run false
            [ ImageUploadModal.Drop [Fixtures.document];
              ImageUploadModal.Upload None true;
              ImageUploadModal.InputChange [Fixtures.photo];
              ImageUploadModal.Upload None true ]
            ImageUploadModal.initial)
     = [ ImageUploadModal.ToastError "fileType";
         ImageUploadModal.ToastError "required";
         ImageUploadModal.ReadAsDataURL Fixtures.photo;
         ImageUploadModal.UploadFile Fixtures.photo ]
  /\ Js.startsWith "image/" (ImageUploadModal.file_type Fixtures.photo) = true
  /\ Js.startsWith "image/" (ImageUploadModal.file_type Fixtures.document) = false
  /\ ImageUploadModal.handleFileSelect Fixtures.document ImageUploadModal.initial
     = (ImageUploadModal.initial, [ImageUploadModal.ToastError "fileType"]).
Proof.
  assert (Hi : ImageUploadModal.image_selected ImageUploadModal.initial)
    by (intros file Hfile; discriminate).
  assert (Hno : Js.startsWith "image/" (ImageUploadModal.file_type Fixtures.document)
                = false) by reflexivity.
  pose proof (upload_takes_only_images false
                [ ImageUploadModal.Drop [Fixtures.document];
                  ImageUploadModal.Upload None true;
                  ImageUploadModal.InputChange [Fixtures.photo];
                  ImageUploadModal.Upload None true ]
                ImageUploadModal.initial Hi) as ((_ & Hup) & Hrefuse & _).
  split; [exact Hi |]. split; [reflexivity |]. split.
  - refine (Hup (ImageUploadModal.UploadFile Fixtures.photo) Fixtures.photo _ eq_refl).
    simpl. tauto.
  - split; [exact Hno |].
    exact (proj1 (Hrefuse Fixtures.document [] ImageUploadModal.initial Hno)).
Defined.



(** ** Saving a broker *)

Module BrokerSubmitFacts.
Import BrokerSubmit.

Section Submit.
Context {Broker Data ImageData File : Type}.
Variable broker_id : Broker -> string.
Variable fails : Call Data ImageData -> bool.

Local Abbreviation throws := (BrokerSubmit.throws fails).
Local Abbreviation attempt := (BrokerSubmit.attempt fails).

Lemma attempt_prefix (planned : list (Call Data ImageData)) :
  exists rest, planned = fst (attempt planned) ++ rest.
Proof.
  induction planned as [|c planned IH]; simpl; [by exists [] |].
  destruct (throws c); simpl; [by exists planned |].
  destruct IH as [rest Hrest].
  destruct (attempt planned) as [done ok]. simpl in *.
  exists rest. by rewrite <- Hrest.
Qed.

Lemma attempt_sub (planned : list (Call Data ImageData)) (c : Call Data ImageData) :
  In c (fst (attempt planned)) -> In c planned.
Proof.
  intros Hc. destruct (attempt_prefix planned) as [rest Hrest].
  rewrite Hrest. apply in_or_app. by left.
Qed.

Lemma attempt_ok (planned : list (Call Data ImageData)) :
  (snd (attempt planned) = true ->
   fst (attempt planned) = planned
   /\ forall c, In c planned -> throws c = false)
  /\ (snd (attempt planned) = false ->
      exists c, In c (fst (attempt planned)) /\ throws c = true).
Proof.
  induction planned as [|c planned IH]; simpl.
  - split; [by split | done].
  - destruct (throws c) eqn:E; simpl.
    + split; [done |]. intros _. exists c. by split; [left |].
    + destruct (attempt planned) as [done ok]. simpl in *.
      destruct IH as [IHt IHf]. split.
      * intros Hok. destruct (IHt Hok) as [-> Hall]. split; [done |].
        intros c' [<- | Hc']; [done | by apply Hall].
      * intros Hok. destruct (IHf Hok) as (c' & Hc' & Ht).
        exists c'. by split; [right |].
Qed.

Lemma attempt_head (planned : list (Call Data ImageData)) :
  List.head (fst (attempt planned)) = List.head planned.
Proof.
  destruct planned as [|c planned]; [done |]. simpl.
  destruct (throws c); [done |]. by destruct (attempt planned).
Qed.

Lemma logoCalls_untouched (brokerId : string) (images : list Image)
    (li : LogoImage ImageData File) :
  logo_file li = None ->
  logoCalls (Data := Data) brokerId images (Some li) = [].
Proof. intros Hf. unfold logoCalls. by rewrite Hf. Qed.

End Submit.

End BrokerSubmitFacts.

(** X17.  Saving a broker on the brokers page, whichever awaited calls
    fail.  The calls start with the update of the edited broker, or with
    the creation of a new one (there is never a creation or a page change
    while editing), and always end with the invalidation of the brokers
    and images queries.  The modal is left exactly as it was when some call
    threw or the broker has no id, and is closed with no broker under edit
    when every call succeeded.  A logo passed without a new file causes no
    image call at all, and an image is only ever created for the saved
    broker, from a logo that carries a new file. *)
Theorem brokerSubmit_calls {Broker Data ImageData File : Type}
    (broker_id : Broker -> string)
    (fails : BrokerSubmit.Call Data ImageData -> bool)
    (newBrokerId : string) (data : Data)
    (logoImage : option (BrokerSubmit.LogoImage ImageData File))
    (accountTypes : list Pages.AccountTypeInput)
    (images : list BrokerSubmit.Image)
    (st : BrokerSubmit.ModalState Broker) :
  let out := BrokerSubmit.handleSubmit broker_id fails newBrokerId data logoImage
               accountTypes images st in
  let brokerId := match BrokerSubmit.editingBroker st with
                  | Some b => broker_id b
                  | None => newBrokerId
                  end in
  (exists body, snd out = body ++ [BrokerSubmit.InvalidateQueries "brokers";
                                    BrokerSubmit.InvalidateQueries "images"])
  /\ ((exists c, In c (snd out) /\ BrokerSubmit.throws fails c = true) ->
      fst out = st)
  /\ (brokerId = ""%string -> fst out = st)
  /\ ((forall c, In c (snd out) -> BrokerSubmit.throws fails c = false) ->
      brokerId <> ""%string ->
      fst out = BrokerSubmit.mkModalState false None)
  /\ (forall b, BrokerSubmit.editingBroker st = Some b ->
        List.head (snd out) = Some (BrokerSubmit.UpdateBroker (broker_id b) data)
        /\ forall c, In c (snd out) ->
             (forall d, c <> BrokerSubmit.CreateBroker d)
             /\ (forall page, c <> BrokerSubmit.HandlePageChange page))
  /\ (BrokerSubmit.editingBroker st = None ->
      List.head (snd out) = Some (BrokerSubmit.CreateBroker data))
  /\ (forall li, logoImage = Some li -> BrokerSubmit.logo_file li = None ->
        forall c, In c (snd out) -> BrokerSubmit.is_image_call c = false)
  /\ (forall d r, In (BrokerSubmit.CreateImage d r) (snd out) ->
        r = brokerId
        /\ exists li, logoImage = Some li /\ d = BrokerSubmit.logo_data li
             /\ BrokerSubmit.logo_file li <> None).
Proof.
  intros out brokerId.
  set (first := match BrokerSubmit.editingBroker st with
                | Some b => [BrokerSubmit.UpdateBroker (broker_id b) data]
                | None => [BrokerSubmit.CreateBroker data;
                           BrokerSubmit.HandlePageChange 1]
                end : list (BrokerSubmit.Call Data ImageData)).
  set (planned := (BrokerSubmit.logoCalls brokerId images logoImage
                   ++ List.map BrokerSubmit.AccountTypes
                        (Pages.saveAccountTypes brokerId accountTypes))
                  : list (BrokerSubmit.Call Data ImageData)).
  set (inv := BrokerSubmit.invalidations (Data := Data) (ImageData := ImageData)).
  assert (Hout : out =
    if negb (snd (BrokerSubmit.attempt fails first))
    then (st, fst (BrokerSubmit.attempt fails first) ++ inv)
    else if negb (Js.truthy (Js.VStr brokerId))
    then (st, fst (BrokerSubmit.attempt fails first) ++ inv)
    else (if snd (BrokerSubmit.attempt fails planned)
          then BrokerSubmit.mkModalState false None else st,
          fst (BrokerSubmit.attempt fails first)
          ++ fst (BrokerSubmit.attempt fails planned) ++ inv)).
  { unfold out, BrokerSubmit.handleSubmit. fold first brokerId planned inv.
    destruct (BrokerSubmit.attempt fails first) as [done1 ok1].
    destruct ok1; cbn [negb fst snd]; [| done].
    destruct (Js.truthy (Js.VStr brokerId)); cbn [negb]; [| done].
    by destruct (BrokerSubmit.attempt fails planned) as [done2 ok2]. }
  pose proof (BrokerSubmitFacts.attempt_ok fails first) as [Hok1 Hko1].
  pose proof (BrokerSubmitFacts.attempt_ok fails planned) as [Hok2 Hko2].
  pose proof (BrokerSubmitFacts.attempt_sub fails first) as Hsub1.
  pose proof (BrokerSubmitFacts.attempt_sub fails planned) as Hsub2.
  pose proof (BrokerSubmitFacts.attempt_head fails first) as Hhead1.
  assert (Hne1 : fst (BrokerSubmit.attempt fails first) <> []).
  { intros Hnil. rewrite Hnil in Hhead1. unfold first in Hhead1.
    by destruct (BrokerSubmit.editingBroker st). }
  assert (Hempty : brokerId = ""%string <-> Js.truthy (Js.VStr brokerId) = false).
  { rewrite TrimFacts.truthy_VStr. by destruct brokerId. }
  assert (Hin : forall c, In c (snd out) ->
            In c first \/ (brokerId <> ""%string /\ In c planned) \/ In c inv).
  { intros c. rewrite Hout.
    destruct (snd (BrokerSubmit.attempt fails first)); cbn [negb fst snd].
    - destruct (Js.truthy (Js.VStr brokerId)) eqn:Et; cbn [negb fst snd].
      + rewrite !in_app_iff. intros [H | [H | H]]; [left; auto | | by right; right].
        right; left. split; [| auto]. intros Hb. apply Hempty in Hb. congruence.
      + rewrite in_app_iff. intros [H | H]; [left; auto | by right; right].
    - rewrite in_app_iff. intros [H | H]; [left; auto | by right; right]. }
  assert (Hhead : List.head (snd out) = List.head first).
  { rewrite <- Hhead1. rewrite Hout.
    destruct (fst (BrokerSubmit.attempt fails first)) as [|c l]; [done |].
    by repeat case_match. }
  assert (Hinv : forall c, In c inv -> BrokerSubmit.throws fails c = false
                                       /\ BrokerSubmit.is_image_call c = false).
  { intros c [<- | [<- | []]]; by split. }
  split; [| split; [| split; [| split; [| split; [| split; [| split]]]]]].
  - rewrite Hout. repeat case_match; cbn [fst snd]; rewrite ?app_assoc; by eexists.
  - intros (c & Hc & Ht). rewrite Hout. rewrite Hout in Hc.
    destruct (snd (BrokerSubmit.attempt fails first)) eqn:E1;
      cbn [negb fst snd] in *; [| done].
    destruct (Js.truthy (Js.VStr brokerId)); cbn [negb fst snd] in *; [| done].
    destruct (snd (BrokerSubmit.attempt fails planned)) eqn:E2; [| done].
    exfalso. destruct (Hok1 eq_refl) as [Hf1 Hall1].
    destruct (Hok2 eq_refl) as [Hf2 Hall2].
    rewrite Hf1, Hf2 in Hc. rewrite !in_app_iff in Hc.
    destruct Hc as [Hc | [Hc | Hc]].
    + rewrite (Hall1 c Hc) in Ht. discriminate.
    + rewrite (Hall2 c Hc) in Ht. discriminate.
    + rewrite (proj1 (Hinv c Hc)) in Ht. discriminate.
  - intros Hb. apply Hempty in Hb. rewrite Hout, Hb. cbn [negb]. by case_match.
  - intros Hall Hb. rewrite Hout. rewrite Hout in Hall.
    assert (Ht : Js.truthy (Js.VStr brokerId) = true).
    { destruct (Js.truthy (Js.VStr brokerId)) eqn:Et; [done |].
      exfalso. by apply Hb, Hempty. }
    rewrite Ht in *. cbn [negb] in *.
    destruct (snd (BrokerSubmit.attempt fails first)) eqn:E1; cbn [negb fst snd] in *.
    + destruct (snd (BrokerSubmit.attempt fails planned)) eqn:E2; [done |].
      exfalso. destruct (Hko2 eq_refl) as (c & Hc & Hthrow).
      rewrite (Hall c) in Hthrow; [discriminate |].
      rewrite !in_app_iff. right. by left.
    + exfalso. destruct (Hko1 eq_refl) as (c & Hc & Hthrow).
      rewrite (Hall c) in Hthrow; [discriminate |].
      rewrite in_app_iff. by left.
  - intros b Hb. split.
    + rewrite Hhead. unfold first. by rewrite Hb.
    + intros c Hc. apply Hin in Hc.
      destruct Hc as [Hc | [[_ Hc] | Hc]].
      * unfold first in Hc. rewrite Hb in Hc. destruct Hc as [<- | []]. by split.
      * unfold planned in Hc. apply in_app_iff in Hc as [Hc | Hc].
        -- unfold BrokerSubmit.logoCalls, BrokerSubmit.deleteLogo in Hc.
           repeat case_match; simpl in Hc;
             repeat (destruct Hc as [<- | Hc]; [by split |]); by destruct Hc.
        -- apply in_map_iff in Hc as (r & <- & _). by split.
      * destruct Hc as [<- | [<- | []]]; by split.
  - intros Hb. rewrite Hhead. unfold first. by rewrite Hb.
  - intros li -> Hfile c Hc. apply Hin in Hc.
    destruct Hc as [Hc | [[_ Hc] | Hc]].
    + unfold first in Hc. destruct (BrokerSubmit.editingBroker st);
        simpl in Hc; repeat (destruct Hc as [<- | Hc]; [done |]); by destruct Hc.
    + unfold planned in Hc.
      rewrite BrokerSubmitFacts.logoCalls_untouched in Hc by done.
      simpl in Hc. by apply in_map_iff in Hc as (r & <- & _).
    + by apply Hinv.
  - intros d r Hc. apply Hin in Hc.
    destruct Hc as [Hc | [[_ Hc] | Hc]].
    + unfold first in Hc. destruct (BrokerSubmit.editingBroker st);
        simpl in Hc; repeat (destruct Hc as [Hc | Hc]; [discriminate |]);
        by destruct Hc.
    + unfold planned in Hc. apply in_app_iff in Hc as [Hc | Hc].
      * unfold BrokerSubmit.logoCalls, BrokerSubmit.deleteLogo in Hc.
        destruct logoImage as [li|].
        -- destruct (BrokerSubmit.logo_file li) eqn:Ef.
           ++ assert (Hlast : BrokerSubmit.CreateImage d r
                              = BrokerSubmit.CreateImage (Data := Data)
                                  (BrokerSubmit.logo_data li) brokerId).
              { destruct (BrokerSubmit.existingLogo brokerId images); simpl in Hc;
                  repeat (destruct Hc as [Hc | Hc]; [congruence |]);
                  by destruct Hc. }
              injection Hlast as -> ->. split; [done |].
              exists li. rewrite Ef. by repeat split.
           ++ by destruct (BrokerSubmit.existingLogo brokerId images).
        -- destruct (BrokerSubmit.existingLogo brokerId images); simpl in Hc;
             repeat (destruct Hc as [Hc | Hc]; [discriminate |]); by destruct Hc.
      * by apply in_map_iff in Hc as (rq & Hrq & _).
    + destruct Hc as [Hc | [Hc | []]]; discriminate.
Qed.

Lemma brokerSubmit_calls_witness :
  let out := BrokerSubmit.handleSubmit (Data := string) id (fun _ => false) "" "data"%string
               (Some Fixtures.newLogo) [] Fixtures.images Fixtures.editing in
  snd out = [ BrokerSubmit.UpdateBroker "b1" "data"%string;
              BrokerSubmit.DeleteImage "img1";
              BrokerSubmit.DeleteFile "brokers" "logos/b1.png";
              BrokerSubmit.CreateImage "logos/b1-new.png"%string "b1";
              BrokerSubmit.InvalidateQueries "brokers";
              BrokerSubmit.InvalidateQueries "images" ]
  /\ (forall c, In c (snd out) -> BrokerSubmit.throws (fun _ => false) c = false)
  /\ "b1"%string <> ""%string
  /\ fst out = BrokerSubmit.mkModalState false None.
Proof.
  intros out.
  assert (Hall : forall c, In c (snd out) ->
            BrokerSubmit.throws (fun _ => false) c = false).
  { intros c _. destruct c as [| | | | | |r|]; try reflexivity. by destruct r. }
  assert (Hid : "b1"%string <> ""%string) by discriminate.
  split; [reflexivity |]. split; [exact Hall |]. split; [exact Hid |].
  destruct (brokerSubmit_calls (Data := string) id (fun _ => false) "" "data"%string
              (Some Fixtures.newLogo) [] Fixtures.images Fixtures.editing)
    as (_ & _ & _ & Hclose & _).
  exact (Hclose Hall Hid).
Defined.

(** ** Reading back the page number *)

Module ParseFacts.
Import Js.







End ParseFacts.


